(** * Clip storage server: metadata / blob consistency

    A shallow embedding of [app.py] (a Flask service that stores uploaded
    video clips in a directory and indexes them in one JSON file) and the
    properties of its upload / list / get / delete handlers. *)

From Stdlib Require Import ZArith Strings.String Strings.Ascii Strings.Byte.
From Stdlib Require Floats.PrimFloat.
From stdpp Require Import gmap strings list fin_maps.
From Equations Require Import Equations.

Set Warnings "-register-all".

Local Open Scope string_scope.
Local Open Scope list_scope.
Local Open Scope Z_scope.

(** Python [bytes]. *)
Abbreviation bytes := (list byte).

(* ===================================================================== *)
(** * Library functions the handlers call *)
(* ===================================================================== *)

(** ** [hashlib.sha256] (FIPS 180-4), on 32-bit words held in [Z] *)

Module SHA256.

Definition mask32 : Z := 0xffffffff.
Definition add32 (a b : Z) : Z := Z.land (a + b) mask32.
Definition shr (n x : Z) : Z := Z.shiftr x n.
Definition rotr (n x : Z) : Z :=
  Z.land (Z.lor (Z.shiftr x n) (Z.shiftl x (32 - n))) mask32.
Definition not32 (x : Z) : Z := Z.lxor x mask32.

Definition Ch (x y z : Z) : Z := Z.lxor (Z.land x y) (Z.land (not32 x) z).
Definition Maj (x y z : Z) : Z :=
  Z.lxor (Z.lxor (Z.land x y) (Z.land x z)) (Z.land y z).
Definition Sigma0 (x : Z) : Z := Z.lxor (Z.lxor (rotr 2 x) (rotr 13 x)) (rotr 22 x).
Definition Sigma1 (x : Z) : Z := Z.lxor (Z.lxor (rotr 6 x) (rotr 11 x)) (rotr 25 x).
Definition sigma0 (x : Z) : Z := Z.lxor (Z.lxor (rotr 7 x) (rotr 18 x)) (shr 3 x).
Definition sigma1 (x : Z) : Z := Z.lxor (Z.lxor (rotr 17 x) (rotr 19 x)) (shr 10 x).

(** The constants are the first 32 bits of the fractional parts of the
    cube roots (round constants) and square roots (initial hash value) of
    the first primes. *)
Definition is_prime (n : nat) : bool :=
  forallb (fun d => negb (n mod d =? 0)%nat) (seq 2 (n - 2)).

Definition primes (n : nat) : list Z :=
  map Z.of_nat (take n (List.filter is_prime (seq 2 400))).

(** The integer cube root of [n], bit by bit from bit [bits - 1] down. *)
Fixpoint cbrt (bits : nat) (n r : Z) : Z :=
  match bits with
  | O => r
  | S b =>
      let r' := r + Z.shiftl 1 (Z.of_nat b) in
      cbrt b n (if r' * r' * r' <=? n then r' else r)
  end.

Definition K : list Z :=
  Eval vm_compute in
    map (fun p => Z.land (cbrt 36 (Z.shiftl p 96) 0) mask32) (primes 64).

Definition H0 : list Z :=
  Eval vm_compute in
    map (fun p => Z.land (Z.sqrt (Z.shiftl p 64)) mask32) (primes 8).

(** Padding: a 1 bit, zeros up to 56 mod 64, the bit length on 8 bytes. *)
Definition be_bytes (n : nat) (z : Z) : list Z :=
  map (fun i : nat => Z.land (Z.shiftr z (8 * Z.of_nat (n - 1 - i))) 0xff) (seq 0 n).

Definition pad (msg : list Z) : list Z :=
  let len := Z.of_nat (length msg) in
  let k := (55 - len) mod 64 in
  msg ++ 0x80 :: repeat 0 (Z.to_nat k) ++ be_bytes 8 (8 * len).

Fixpoint words (bs : list Z) : list Z :=
  match bs with
  | a :: b :: c :: d :: r =>
      Z.lor (Z.lor (Z.shiftl a 24) (Z.shiftl b 16)) (Z.lor (Z.shiftl c 8) d) :: words r
  | _ => []
  end.

(** One round: [st] is a..h, [w] the 16 most recent schedule words. *)
Definition round (acc : list Z * list Z) (k : Z) : list Z * list Z :=
  match acc with
  | ([a; b; c; d; e; f; g; h], w) =>
      let wt := nth 0 w 0 in
      let t1 := add32 (add32 (add32 (add32 h (Sigma1 e)) (Ch e f g)) k) wt in
      let t2 := add32 (Sigma0 a) (Maj a b c) in
      let nxt := add32 (add32 (add32 (sigma1 (nth 14 w 0)) (nth 9 w 0))
                              (sigma0 (nth 1 w 0))) wt in
      ([add32 t1 t2; a; b; c; add32 d t1; e; f; g], tl w ++ [nxt])
  | _ => acc
  end.

Definition compress (h : list Z) (block : list Z) : list Z :=
  zip_with add32 h (fst (fold_left round K (h, block))).

Fixpoint blocks (fuel : nat) (h : list Z) (ws : list Z) : list Z :=
  match fuel, ws with
  | S fuel, _ :: _ => blocks fuel (compress h (take 16 ws)) (drop 16 ws)
  | _, _ => h
  end.

(** The digest as eight 32-bit words. *)
Definition digest (msg : bytes) : list Z :=
  let ws := words (pad (map (fun b => Z.of_N (Byte.to_N b)) msg)) in
  blocks (length ws) H0 ws.

Definition hex_digit (z : Z) : ascii :=
  nth (Z.to_nat z) (list_ascii_of_string "0123456789abcdef") "0"%char.

(** [n] lower-case hexadecimal digits of [z], most significant first. *)
Definition hex (n : nat) (z : Z) : string :=
  string_of_list_ascii
    (map (fun i : nat => hex_digit (Z.land (Z.shiftr z (4 * Z.of_nat (n - 1 - i))) 0xf))
         (seq 0 n)).

Definition hexdigest (msg : bytes) : string :=
  String.concat "" (map (hex 8) (digest msg)).

End SHA256.

(** [hashlib]'s hash object.  [update] is documented as: repeated calls are
    equivalent to a single call with the concatenation of all the arguments;
    the object is therefore modelled by the bytes fed so far. *)
Record sha256_hash := { fed : bytes }.
Definition sha256 : sha256_hash := {| fed := [] |}.
Definition update (h : sha256_hash) (block : bytes) : sha256_hash :=
  {| fed := fed h ++ block |}.
Definition hexdigest (h : sha256_hash) : string := SHA256.hexdigest (fed h).

(** ** [str] operations

    A [str] is modelled by a string of 8-bit characters, read as the code
    points below 256. *)

(** The lower-case mapping of these code points: A-Z, and the Latin-1
    capitals U+00C0-U+00DE except the multiplication sign U+00D7. *)
Definition lower_char (c : ascii) : ascii :=
  let n := nat_of_ascii c in
  if ((65 <=? n) && (n <=? 90)
      || (192 <=? n) && (n <=? 222) && negb (n =? 215))%nat
  then ascii_of_nat (n + 32) else c.

(** [s.lower()] *)
Definition lower (s : string) : string :=
  string_of_list_ascii (map lower_char (list_ascii_of_string s)).

(** [s.rfind(c)]: the highest index of [c] in [s], or -1. *)
Fixpoint rfind (c : ascii) (s : list ascii) : Z :=
  match s with
  | [] => -1
  | x :: r =>
      let i := rfind c r in
      if 0 <=? i then i + 1 else if Ascii.eqb x c then 0 else -1
  end.

(** [s.split(sep)] for a one-character separator. *)
Fixpoint split (sep : ascii) (s : list ascii) : list (list ascii) :=
  match s with
  | [] => [[]]
  | c :: r =>
      if Ascii.eqb c sep then [] :: split sep r
      else match split sep r with
           | h :: t => (c :: h) :: t
           | [] => [[c]]
           end
  end.

(** [s[:n]] *)
Definition prefix (n : nat) (s : string) : string :=
  string_of_list_ascii (take n (list_ascii_of_string s)).

(** ** [pathlib] (POSIX flavour) *)

(** The components of a path: split on the separator, empty and [.]
    components dropped (the root is not a component). *)
Definition parts (p : string) : list (list ascii) :=
  filter (fun x => x ≠ [] ∧ x ≠ ["."%char]) (split "/"%char (list_ascii_of_string p)).

(** [Path(p).name]: the final component, or the empty string. *)
Definition name (p : string) : list ascii := List.last (parts p) [].

(** [Path(p).suffix], as [pathlib] defines it up to CPython 3.13:
    [i = name.rfind('.'); name[i:] if 0 < i < len(name) - 1 else ''] *)
Definition suffix (p : string) : string :=
  let nm := name p in
  let i := rfind "."%char nm in
  if (0 <? i) && (i <? Z.of_nat (length nm) - 1)
  then string_of_list_ascii (drop (Z.to_nat i) nm)
  else "".

(** A character of the file names that are modelled: printable ASCII
    (U+0020 to U+007E) other than the separator.  It is one byte in UTF-8,
    and neither the file system nor a response header refuses it. *)
Definition name_char (c : ascii) : bool :=
  let n := nat_of_ascii c in
  (32 <=? n)%nat && (n <=? 126)%nat && negb (Ascii.eqb c "/"%char).

(** A name that denotes an entry directly inside a directory and that
    every layer under the handlers takes as it is: one component, not [.]
    or [..], made of [name_char]s (so without NUL, CR, LF or any other
    control character, and without characters longer than one byte), at
    most NAME_MAX = 255 bytes long. *)
Definition plain (nm : string) : bool :=
  let l := list_ascii_of_string nm in
  negb (String.eqb nm "") && negb (String.eqb nm ".") && negb (String.eqb nm "..")
  && forallb name_char l
  && (length l <=? 255)%nat.

(** ** [uuid] *)

(** [uuid.uuid4()] as an integer, from the 16 bytes of [os.urandom] read
    as a big-endian integer: the variant and version bits are forced. *)
Definition uuid4 (urandom : Z) : Z :=
  let i := Z.ldiff urandom (Z.shiftl 0xc000 48) in
  let i := Z.lor i (Z.shiftl 0x8000 48) in
  let i := Z.ldiff i (Z.shiftl 0xf000 64) in
  Z.lor i (Z.shiftl 4 76).

(** [str(u)]: 32 hexadecimal digits grouped 8-4-4-4-12. *)
Definition uuid_str (u : Z) : string :=
  let h := list_ascii_of_string (SHA256.hex 32 u) in
  let seg (a b : nat) := string_of_list_ascii (take (b - a)%nat (drop a h)) in
  (seg 0 8 ++ "-" ++ seg 8 12 ++ "-" ++ seg 12 16 ++ "-" ++ seg 16 20 ++ "-"
   ++ seg 20 32)%nat%string.

(* ===================================================================== *)
(** * Python values, exceptions and the state of the server *)
(* ===================================================================== *)

(** The objects [json.load] builds.  A [dict] keeps its items in insertion
    order with one item per key; no two of the objects built by one
    [json.load] are shared. *)
Inductive value : Type :=
| JNone
| JBool (b : bool)
| JInt (z : Z)
| JFloat (f : PrimFloat.float)
| JStr (s : string)
| JList (l : list value)
| JDict (items : list (string * value)).

(** [d.get(k)] on the items of a dict. *)
Fixpoint dict_get (k : string) (items : list (string * value)) : option value :=
  match items with
  | [] => None
  | (k', v) :: r => if String.eqb k' k then Some v else dict_get k r
  end.

(** [d[k] = v] on the items of a dict: an existing key keeps its place. *)
Fixpoint dict_set (k : string) (v : value) (items : list (string * value))
  : list (string * value) :=
  match items with
  | [] => [(k, v)]
  | (k', v') :: r => if String.eqb k' k then (k, v) :: r else (k', v') :: dict_set k v r
  end.

Inductive exn : Type :=
| KeyError (key : string)
| TypeError
| AttributeError
| FileNotFoundError
| PermissionError
| JSONDecodeError
| NotFound.

(** The result of running a piece of Python: a value, a raised exception,
    or [Beyond] where the code leaves what is modelled: a stored file
    name that is not [plain] (it may point anywhere on the disk, or be
    refused by the file system or in a header), and a file sent in answer
    to a request with a [Range] or a conditional header. *)
Inductive outcome (A : Type) : Type :=
| Val (a : A)
| Exc (e : exn)
| Beyond.
Arguments Val {A} a.
Arguments Exc {A} e.
Arguments Beyond {A}.

(** [bool(v)] *)
Definition truthy (v : value) : bool :=
  match v with
  | JNone => false
  | JBool b => b
  | JInt z => negb (z =? 0)
  | JFloat f => negb (PrimFloat.is_zero f)
  | JStr s => negb (String.eqb s "")
  | JList l => match l with [] => false | _ => true end
  | JDict d => match d with [] => false | _ => true end
  end.

(** [v[k]] for a [str] key [k] *)
Definition getitem (v : value) (k : string) : outcome value :=
  match v with
  | JDict d => match dict_get k d with Some x => Val x | None => Exc (KeyError k) end
  | _ => Exc TypeError
  end.

(** [v[k] = x] for a [str] key [k] *)
Definition setitem (v : value) (k : string) (x : value) : outcome value :=
  match v with
  | JDict d => Val (JDict (dict_set k x d))
  | _ => Exc TypeError
  end.

(** [v.append(x)]: the list after the call. *)
Definition append (v : value) (x : value) : outcome value :=
  match v with
  | JList l => Val (JList (l ++ [x]))
  | _ => Exc AttributeError
  end.

(** [iter(v)]: the elements a [for] loop over [v] visits. *)
Definition iter (v : value) : outcome (list value) :=
  match v with
  | JList l => Val l
  | JDict d => Val (map (fun kv => JStr (fst kv)) d)
  | JStr s => Val (map (fun c => JStr (String c EmptyString)) (list_ascii_of_string s))
  | _ => Exc TypeError
  end.

(** [v == s] for a [str] [s] *)
Definition eq_str (v : value) (s : string) : bool :=
  match v with
  | JStr t => String.eqb t s
  | _ => false
  end.

(** ** The disk *)

(** The text of a file, up to what [json.load] makes of it; [json.load]
    of what [json.dump] wrote is the object dumped. *)
Inductive text : Type :=
| NotJson
| Json (v : value).

Record file : Type := { readable : bool; writable : bool; contents : text }.

(** [METADATA_FILE] ([None]: no such file) and the files of
    [UPLOAD_FOLDER] by name: the directory is there (line 15 makes it)
    and can be written, and what it holds are regular files that can be
    read and removed. *)
Record disk : Type := { metadata_file : option file; uploads : gmap string bytes }.

(** Code that reads and writes the disk and may raise. *)
Definition M (A : Type) : Type := disk -> outcome A * disk.

Definition ret {A} (a : A) : M A := fun st => (Val a, st).
Definition raise {A} (e : exn) : M A := fun st => (Exc e, st).
Definition lift {A} (o : outcome A) : M A := fun st => (o, st).
Definition bind {A B} (m : M A) (k : A -> M B) : M B :=
  fun st =>
    match m st with
    | (Val a, st') => k a st'
    | (Exc e, st') => (Exc e, st')
    | (Beyond, st') => (Beyond, st')
    end.

Notation "'do' x <- m ; k" := (bind m (fun x => k))
  (at level 10, x name, m at level 100, k at level 200).
Notation "m ;; k" := (bind m (fun _ => k))
  (at level 100, k at level 200, right associativity).

(** [try: body except: return handler] *)
Definition try_except {A} (body : M A) (handler : exn -> M A) : M A :=
  fun st =>
    match body st with
    | (Exc e, st') => handler e st'
    | r => r
    end.

(* ===================================================================== *)
(** * The server *)
(* ===================================================================== *)

(** What a handler returns. *)
Inductive response : Type :=
| jsonify (body : value) (status : Z)
| server_error (e : exn)           (** [jsonify({"error": str(e)}), 500] *)
| send_file (nm : string) (data : bytes).  (** the file, status 200 *)

Definition status_code (r : response) : Z :=
  match r with
  | jsonify _ s => s
  | server_error _ => 500
  | send_file _ _ => 200
  end.

(** [request.files['file']]: the client's file name and the stream. *)
Record FileStorage : Type := { filename : string; stream : bytes }.

(** An upload request: [None] when ['file' not in request.files]. *)
Definition request : Type := option FileStorage.

(** What an upload reads from its environment: the 16 bytes of
    [os.urandom] as an integer and [datetime.now().isoformat()]. *)
Record env : Type := { urandom : Z; now : string }.

Definition empty_document : value := JDict [("clips", JList [])].

(** Lines 14-25 at import time: the metadata file is created when there
    is none. *)
Definition startup (st : disk) : disk :=
  match metadata_file st with
  | Some _ => st
  | None =>
      {| metadata_file :=
           Some {| readable := true; writable := true; contents := Json empty_document |};
         uploads := uploads st |}
  end.

(** [open(METADATA_FILE, 'r')] and reading it. *)
Definition open_read : M text :=
  fun st =>
    match metadata_file st with
    | None => (Exc FileNotFoundError, st)
    | Some f => if readable f then (Val (contents f), st) else (Exc PermissionError, st)
    end.

Definition json_load (t : text) : outcome value :=
  match t with
  | NotJson => Exc JSONDecodeError
  | Json v => Val v
  end.

Definition load_metadata : M value :=
  try_except
    (do f <- open_read; lift (json_load f))
    (fun _ => ret empty_document).

(** [open(METADATA_FILE, 'w')] and [json.dump(data, f, indent=2)]. *)
Definition save_metadata (data : value) : M unit :=
  fun st =>
    match metadata_file st with
    | None =>
        (Val tt,
         {| metadata_file :=
              Some {| readable := true; writable := true; contents := Json data |};
            uploads := uploads st |})
    | Some f =>
        if writable f
        then (Val tt,
              {| metadata_file :=
                   Some {| readable := readable f; writable := true; contents := Json data |};
                 uploads := uploads st |})
        else (Exc PermissionError, st)
    end.

(** [str(uuid.uuid4())[:8]] *)
Definition generate_clip_id (e : env) : string :=
  prefix 8 (uuid_str (uuid4 (urandom e))).

(** The number of bytes [f.read(4096)] asks for. *)
Definition block_size : nat := 4096.

#[local] Opaque block_size.

(** The loop [for byte_block in iter(lambda: f.read(4096), b"")] over what
    is left of the file: [f.read(4096)] is empty exactly at the end. *)
Equations? read_blocks (rest : bytes) (h : sha256_hash) : sha256_hash
  by wf (length rest) lt :=
  read_blocks [] h := h;
  read_blocks (b :: r) h :=
    read_blocks (drop block_size (b :: r)) (update h (take block_size (b :: r))).
Proof.
  rewrite length_drop.
  assert (0 < block_size)%nat
    by (with_strategy transparent [block_size] (unfold block_size); apply Nat.lt_0_succ).
  simpl length. lia.
Qed.

#[local] Transparent block_size.

(** [UPLOAD_FOLDER / nm] *)
Definition in_uploads (nm : string) : M string :=
  fun st => if plain nm then (Val nm, st) else (Beyond, st).

Definition open_rb (filepath : string) : M bytes :=
  fun st =>
    match uploads st !! filepath with
    | Some data => (Val data, st)
    | None => (Exc FileNotFoundError, st)
    end.

Definition get_file_hash (filepath : string) : M string :=
  do f <- open_rb filepath;
  ret (prefix 16 (hexdigest (read_blocks f sha256))).

(** [file.save(filepath)] *)
Definition save (f : FileStorage) (filepath : string) : M unit :=
  fun st =>
    (Val tt, {| metadata_file := metadata_file st;
                uploads := <[filepath := stream f]> (uploads st) |}).

(** [filepath.stat().st_size] *)
Definition st_size (filepath : string) : M Z :=
  do f <- open_rb filepath; ret (Z.of_nat (length f)).

(** [filepath.exists()] *)
Definition exists_ (filepath : string) : M bool :=
  fun st => (Val (match uploads st !! filepath with Some _ => true | None => false end), st).

(** [filepath.unlink()] *)
Definition unlink (filepath : string) : M unit :=
  fun st =>
    match uploads st !! filepath with
    | Some _ => (Val tt, {| metadata_file := metadata_file st;
                            uploads := delete filepath (uploads st) |})
    | None => (Exc FileNotFoundError, st)
    end.

Definition allowed_extensions : list string := [".mp4"; ".avi"; ".mov"; ".mkv"; ".webm"].

(** [x in allowed_extensions] *)
Definition allowed (x : string) : bool := existsb (String.eqb x) allowed_extensions.

(** [next((c for c in clips if c["clip_id"] == clip_id), None)] once the
    iterator is made: the scan stops at the first match, and gives [None]
    when it reaches the end. *)
Fixpoint next (clip_id : string) (clips : list value) : outcome value :=
  match clips with
  | [] => Val JNone
  | c :: rest =>
      match getitem c "clip_id" with
      | Val v => if eq_str v clip_id then Val c else next clip_id rest
      | Exc e => Exc e
      | Beyond => Beyond
      end
  end.

(** [[c for c in clips if c["clip_id"] != clip_id]] *)
Fixpoint others (clip_id : string) (clips : list value) : outcome (list value) :=
  match clips with
  | [] => Val []
  | c :: rest =>
      match getitem c "clip_id" with
      | Val v =>
          match others clip_id rest with
          | Val l => Val (if negb (eq_str v clip_id) then c :: l else l)
          | r => r
          end
      | Exc e => Exc e
      | Beyond => Beyond
      end
  end.

(** [UPLOAD_FOLDER / v] for an object [v]: only a [str] can be joined. *)
Definition join_uploads (v : value) : M string :=
  match v with
  | JStr nm => in_uploads nm
  | _ => raise TypeError
  end.

(** The default of [BASE_URL], and the text of the set of extensions as
    one run of the interpreter prints it. *)
Definition base_url : string := "http://localhost:5000".
Definition set_repr : string := "{'.mp4', '.avi', '.mov', '.mkv', '.webm'}".

(** The server run from its own directory: the root path's [uploads] is
    the working directory's. *)
Definition at_root : option (gmap string bytes) := None.

Section Server.

(** [os.getenv('BASE_URL', 'http://localhost:5000')] *)
Variable BASE_URL : string.

(** The text of [f"{allowed_extensions}"]: the order in which a set prints
    its elements depends on the process's hash seed. *)
Variable allowed_repr : string.

(** Where [send_from_directory] looks.  Flask resolves the relative
    [UPLOAD_FOLDER] against the application's root path, while
    [Path('uploads')] in [save], [exists] and [unlink] is relative to the
    working directory.  [None]: the server runs in its root path and both
    are one directory; [Some files]: the root path's [uploads] is another
    directory, holding [files] (none when it does not exist). *)
Variable root_uploads : option (gmap string bytes).

Definition error_body (msg : string) : value := JDict [("error", JStr msg)].

(** The metadata entry built by [upload_clip]. *)
Definition clip_data (clip_id safe_filename original_filename upload_time : string)
    (file_size : Z) (file_hash : string) : value :=
  JDict [ ("clip_id", JStr clip_id);
          ("filename", JStr safe_filename);
          ("original_filename", JStr original_filename);
          ("upload_time", JStr upload_time);
          ("file_size", JInt file_size);
          ("file_hash", JStr file_hash);
          ("url", JStr (BASE_URL ++ "/clips/" ++ clip_id)%string) ].

Definition upload_ok (clip_id : string) : value :=
  JDict [ ("success", JBool true);
          ("clip_id", JStr clip_id);
          ("url", JStr (BASE_URL ++ "/view/" ++ clip_id)%string);
          ("download_url", JStr (BASE_URL ++ "/clips/" ++ clip_id)%string);
          ("message", JStr "Clip uploaded successfully") ].

Definition upload_clip (e : env) (req : request) : M response :=
  try_except
    match req with
    | None => ret (jsonify (error_body "No file provided") 400)
    | Some file =>
        if String.eqb (filename file) ""
        then ret (jsonify (error_body "No file selected") 400)
        else
          let file_ext := lower (suffix (filename file)) in
          if negb (allowed file_ext)
          then ret (jsonify (error_body ("Invalid file type. Allowed: " ++ allowed_repr)%string)
                            400)
          else
            let clip_id := generate_clip_id e in
            let safe_filename := (clip_id ++ file_ext)%string in
            do filepath <- in_uploads safe_filename;
            save file filepath;;
            do file_size <- st_size filepath;
            do file_hash <- get_file_hash filepath;
            let clip_data :=
              clip_data clip_id safe_filename (filename file) (now e) file_size file_hash in
            do metadata <- load_metadata;
            do clips <- lift (getitem metadata "clips");
            do clips <- lift (append clips clip_data);
            do metadata <- lift (setitem metadata "clips" clips);
            save_metadata metadata;;
            ret (jsonify (upload_ok clip_id) 200)
    end
    (fun err => ret (server_error err)).

Definition list_clips : M response :=
  try_except
    (do metadata <- load_metadata;
     ret (jsonify metadata 200))
    (fun e => ret (server_error e)).

(** The files of the directory [send_from_directory] serves from. *)
Definition served (st : disk) : gmap string bytes :=
  match root_uploads with
  | None => uploads st
  | Some files => files
  end.

(** [send_from_directory(UPLOAD_FOLDER, path, as_attachment=False)]: it
    raises [NotFound] when the directory it serves from has no such file;
    [conditional] tells whether the request carries a [Range] header or a
    conditional one ([If-Match], [If-None-Match], [If-Modified-Since],
    [If-Unmodified-Since], [If-Range]), on which the answer for a file
    that is there depends. *)
Definition send_from_directory (path : value) (conditional : bool) : M response :=
  do filepath <- join_uploads path;
  fun st =>
    match served st !! filepath with
    | Some data =>
        if conditional then (Beyond, st) else (Val (send_file filepath data), st)
    | None => (Exc NotFound, st)
    end.

(** [conditional]: see [send_from_directory]; the handler reads nothing
    else from the request. *)
Definition get_clip (clip_id : string) (conditional : bool) : M response :=
  try_except
    (do metadata <- load_metadata;
     do clips <- lift (getitem metadata "clips");
     do clips <- lift (iter clips);
     do clip <- lift (next clip_id clips);
     if negb (truthy clip)
     then ret (jsonify (error_body "Clip not found") 404)
     else
       do nm <- lift (getitem clip "filename");
       do filepath <- join_uploads nm;
       do found <- exists_ filepath;
       if negb found
       then ret (jsonify (error_body "File not found on server") 404)
       else
         do nm <- lift (getitem clip "filename");
         send_from_directory nm conditional)
    (fun e => ret (server_error e)).

Definition delete_ok (clip_id : string) : value :=
  JDict [ ("success", JBool true);
          ("message", JStr ("Clip " ++ clip_id ++ " deleted")%string) ].

Definition delete_clip (clip_id : string) : M response :=
  try_except
    (do metadata <- load_metadata;
     do clips <- lift (getitem metadata "clips");
     do clips <- lift (iter clips);
     do clip <- lift (next clip_id clips);
     if negb (truthy clip)
     then ret (jsonify (error_body "Clip not found") 404)
     else
       do nm <- lift (getitem clip "filename");
       do filepath <- join_uploads nm;
       do found <- exists_ filepath;
       (if found then unlink filepath else ret tt);;
       do clips <- lift (getitem metadata "clips");
       do clips <- lift (iter clips);
       do kept <- lift (others clip_id clips);
       do metadata <- lift (setitem metadata "clips" (JList kept));
       save_metadata metadata;;
       ret (jsonify (delete_ok clip_id) 200))
    (fun e => ret (server_error e)).

(** ** Sequences of requests *)

Inductive op : Type :=
| Upload (e : env) (req : request)
| List_
| Get (clip_id : string) (conditional : bool)
| Delete (clip_id : string).

Definition handle (o : op) : M response :=
  match o with
  | Upload e req => upload_clip e req
  | List_ => list_clips
  | Get clip_id conditional => get_clip clip_id conditional
  | Delete clip_id => delete_clip clip_id
  end.

(** The disk after serving the requests one after the other. *)
Fixpoint serve (ops : list op) (st : disk) : disk :=
  match ops with
  | [] => st
  | o :: rest => serve rest (snd (handle o st))
  end.

(** The states of a server started where there is no metadata file yet. *)
Inductive reachable : disk -> Prop :=
| reachable_start (blobs : gmap string bytes) :
    reachable (startup {| metadata_file := None; uploads := blobs |})
| reachable_step (o : op) (st : disk) :
    reachable st -> reachable (snd (handle o st)).

(** ** Reading a document *)

(** The [clips] of a document, when it has that list. *)
Definition clips_of (doc : value) : option (list value) :=
  match doc with
  | JDict d => match dict_get "clips" d with Some (JList l) => Some l | _ => None end
  | _ => None
  end.

(** [c["clip_id"] == clip_id] holds of the entry [c] *)
Definition has_id (clip_id : string) (c : value) : bool :=
  match getitem c "clip_id" with
  | Val v => eq_str v clip_id
  | _ => false
  end.

(** An entry on which the handlers' subscripts succeed: a dict with a
    [clip_id] and a [filename] that is the name of a file. *)
Definition is_record (c : value) : bool :=
  match c with
  | JDict d =>
      match dict_get "clip_id" d, dict_get "filename" d with
      | Some _, Some (JStr nm) => plain nm
      | _, _ => false
      end
  | _ => false
  end.

(** The entries of a document all of whose entries are records. *)
Definition records (doc : value) : option (list value) :=
  match clips_of doc with
  | Some l => if forallb is_record l then Some l else None
  | None => None
  end.

(** The stored file name of an entry. *)
Definition stored_name (c : value) : string :=
  match getitem c "filename" with
  | Val (JStr nm) => nm
  | _ => ""
  end.

(** The [clip_id]s of the entries, in order. *)
Definition ids (l : list value) : list (outcome value) :=
  map (fun c => getitem c "clip_id") l.

(** [save_metadata] would not raise. *)
Definition can_save (st : disk) : bool :=
  match metadata_file st with
  | None => true
  | Some f => writable f
  end.

(** ** The records the specification implies *)

(** ClipRecord, section 3 of the specification. *)
Record ClipRecord : Type := {
  clip_id : string;
  stored_filename : string;
  original_filename : string;
  upload_time : string;
  file_size : Z;
  file_hash : string;
  url : string
}.

Definition to_value (r : ClipRecord) : value :=
  JDict [ ("clip_id", JStr (clip_id r));
          ("filename", JStr (stored_filename r));
          ("original_filename", JStr (original_filename r));
          ("upload_time", JStr (upload_time r));
          ("file_size", JInt (file_size r));
          ("file_hash", JStr (file_hash r));
          ("url", JStr (url r)) ].

(** Section 4.3: an accepted upload appends one record; a rejected one
    changes nothing. *)
Definition spec_upload (e : env) (req : request) (rs : list ClipRecord) : list ClipRecord :=
  match req with
  | None => rs
  | Some file =>
      let ext := lower (suffix (filename file)) in
      if String.eqb (filename file) "" || negb (allowed ext) then rs
      else
        let id := generate_clip_id e in
        rs ++ [ {| clip_id := id;
                   stored_filename := (id ++ ext)%string;
                   original_filename := filename file;
                   upload_time := now e;
                   file_size := Z.of_nat (length (stream file));
                   file_hash := prefix 16 (SHA256.hexdigest (stream file));
                   url := (BASE_URL ++ "/clips/" ++ id)%string |} ]
  end.

(** Section 4.6: a delete removes the record with that identifier. *)
Definition spec_delete (id : string) (rs : list ClipRecord) : list ClipRecord :=
  filter (fun r => clip_id r ≠ id) rs.

Definition spec_step (rs : list ClipRecord) (o : op) : list ClipRecord :=
  match o with
  | Upload e req => spec_upload e req rs
  | Delete id => spec_delete id rs
  | List_ | Get _ _ => rs
  end.

(** The records implied by a sequence of requests. *)
Definition spec_records (ops : list op) : list ClipRecord := fold_left spec_step ops [].

Definition spec_document (rs : list ClipRecord) : value :=
  JDict [("clips", JList (map to_value rs))].

(** What [load_metadata] returns on a disk. *)
Definition document (st : disk) : value :=
  match fst (load_metadata st) with
  | Val doc => doc
  | _ => empty_document
  end.

(** The characters of a hexadecimal numeral. *)
Definition hex_chars : list ascii := list_ascii_of_string "0123456789abcdef".

(** An entry that can be subscripted with ["clip_id"]. *)
Definition keyed (c : value) : Prop := ∃ v, getitem c "clip_id" = Val v.

(** The first entry with the given [clip_id], if any. *)
Definition lookup_clip (clip_id : string) (l : list value) : option value :=
  List.find (has_id clip_id) l.

(** The entries with another [clip_id]. *)
Definition without (clip_id : string) (l : list value) : list value :=
  List.filter (fun c => negb (has_id clip_id c)) l.

(** The disk agrees with a list of records: the metadata file is the
    server's own and holds exactly their document, and every record's
    blob name is the name of a file. *)
Definition consistent (st : disk) (rs : list ClipRecord) : Prop :=
  metadata_file st
  = Some {| readable := true; writable := true; contents := Json (spec_document rs) |}
  ∧ Forall (fun r => plain (stored_filename r) = true) rs.

(** No two entries of the stored document carry the same [clip_id]. *)
Definition unique_ids (st : disk) : Prop :=
  ∀ l, clips_of (document st) = Some l -> NoDup (ids l).

(** ** Requests and disks used in the examples *)

Definition env0 : env :=
  {| urandom := 0x0123456789abcdef0123456789abcdef; now := "2024-05-01T10:00:00.000000" |}.
Definition abc_mp4 : FileStorage :=
  {| filename := "Holiday.MP4"; stream := list_byte_of_string "abc" |}.
Definition evil_exe : FileStorage :=
  {| filename := "evil.exe"; stream := list_byte_of_string "MZ" |}.
Definition dot_mp4 : FileStorage :=
  {| filename := ".mp4"; stream := list_byte_of_string "abc" |}.
Definition fresh_disk : disk := startup {| metadata_file := None; uploads := ∅ |}.

(** The disk after [abc_mp4] was uploaded to a fresh server. *)
Definition one_clip : disk := serve [Upload env0 (Some abc_mp4)] fresh_disk.

(** Two entries with one identifier and a third one. *)
Definition duplicates : disk :=
  serve
    [ Upload {| urandom := 0x5eedc0de0123456789abcdef01234567; now := "2024-05-01T10:00:00" |}
             (Some {| filename := "first.mp4"; stream := list_byte_of_string "one" |});
      Upload {| urandom := 0x5eedc0defedcba9876543210fedcba98; now := "2024-05-01T10:00:01" |}
             (Some {| filename := "second.avi"; stream := list_byte_of_string "two" |});
      Upload env0 (Some abc_mp4) ]
    fresh_disk.

(** ** What a piece of code may do to the disk *)

(** Every run of [m] takes a disk to one related to it by [R], whatever
    it returns or raises. *)
Definition changes {A} (R : disk -> disk -> Prop) (m : M A) : Prop :=
  ∀ st, R st (snd (m st)).

(** No blob is created or altered: the blobs afterwards are among the
    blobs before, with their content. *)
Definition only_removes_blobs (st st' : disk) : Prop := uploads st' ⊆ uploads st.

(** The exception [metadata["clips"].append(...)] raises on a loaded
    document without a [clips] list. *)
Definition append_error (doc : value) : exn :=
  match doc with
  | JDict d =>
      match dict_get "clips" d with
      | Some _ => AttributeError
      | None => KeyError "clips"
      end
  | _ => TypeError
  end.

(** What [save_metadata] writes can be loaded again: the metadata file
    is readable, or it does not exist and will be created. *)
Definition will_read (st : disk) : bool :=
  match metadata_file st with
  | None => true
  | Some f => readable f
  end.

(** A record named as [upload_clip] names them: an identifier of eight
    characters, and a blob name made of it and an allowed extension. *)
Definition well_named (r : ClipRecord) : Prop :=
  String.length (clip_id r) = 8%nat
  ∧ ∃ ext, allowed ext = true ∧ stored_filename r = (clip_id r ++ ext)%string.

(** The disk agrees with the records, which are well named and whose
    blobs are all there. *)
Definition sound (st : disk) (rs : list ClipRecord) : Prop :=
  consistent st rs
  ∧ Forall well_named rs
  ∧ Forall (fun r => is_Some (uploads st !! stored_filename r)) rs.

(** The record uploaded last under a blob name. *)
Fixpoint latest (nm : string) (rs : list ClipRecord) : option ClipRecord :=
  match rs with
  | [] => None
  | r :: rest =>
      match latest nm rest with
      | Some r' => Some r'
      | None => if String.eqb (stored_filename r) nm then Some r else None
      end
  end.

(** The record describes the bytes: their number and their truncated
    digest. *)
Definition describes (r : ClipRecord) (data : bytes) : Prop :=
  file_size r = Z.of_nat (length data)
  ∧ file_hash r = prefix 16 (SHA256.hexdigest data).

(** Every blob a record names holds what the last record uploaded under
    that name describes. *)
Definition faithful (st : disk) (rs : list ClipRecord) : Prop :=
  ∀ nm r, latest nm rs = Some r -> ∃ data, uploads st !! nm = Some data ∧ describes r data.

(** A metadata file holding [{}], one that is not JSON, and one with a
    member besides [clips]. *)
Definition no_clips : disk :=
  {| metadata_file :=
       Some {| readable := true; writable := true; contents := Json (JDict []) |};
     uploads := ∅ |}.
Definition not_json : disk :=
  {| metadata_file := Some {| readable := true; writable := true; contents := NotJson |};
     uploads := ∅ |}.
Definition versioned : disk :=
  {| metadata_file :=
       Some {| readable := true; writable := true;
               contents := Json (JDict [("version", JInt 2); ("clips", JList [])]) |};
     uploads := ∅ |}.

(** The same disk with a metadata file that cannot be written. *)
Definition locked (st : disk) : disk :=
  {| metadata_file :=
       match metadata_file st with
       | Some f => Some {| readable := readable f; writable := false; contents := contents f |}
       | None => None
       end;
     uploads := uploads st |}.

Definition other_avi : FileStorage :=
  {| filename := "other.avi"; stream := list_byte_of_string "xyz" |}.

(** A document whose second entry is the number 5. *)
Definition broken_tail : disk :=
  {| metadata_file :=
       Some {| readable := true; writable := true;
               contents :=
                 Json (JDict [("clips",
                               JList [ clip_data "01234567" "01234567.mp4" "Holiday.MP4"
                                         "2024-05-01T10:00:00.000000" 3 "ba7816bf8f01cfea";
                                       JInt 5 ])]) |};
     uploads := {[ "01234567.mp4" := list_byte_of_string "abc" ]} |}.

(** A request other than a download with a [Range] or conditional
    header. *)
Definition unconditional (o : op) : bool :=
  match o with
  | Get _ conditional => negb conditional
  | _ => true
  end.

(** The disk of [one_clip] after its blob was removed by hand: the
    entry is still in the metadata file. *)
Definition blob_gone : disk :=
  {| metadata_file := metadata_file one_clip; uploads := ∅ |}.

(* ===================================================================== *)
(** * Properties *)
(* ===================================================================== *)

Ltac run := cbv beta iota delta [bind lift ret raise try_except].

(** ** The metadata store *)

Lemma load_metadata_cases (st : disk) :
  load_metadata st =
  (Val match metadata_file st with
       | None => empty_document
       | Some f =>
           if readable f
           then match contents f with
                | Json v => v
                | NotJson => empty_document
                end
           else empty_document
       end, st).
Proof.
  unfold load_metadata, open_read, json_load. run.
  destruct (metadata_file st) as [f|]; [|reflexivity].
  destruct (readable f); [|reflexivity].
  destruct (contents f); reflexivity.
Qed.

(** C8. [load_metadata] always returns, leaves the disk as it is, and gives
    the empty document when the file is missing, unreadable or not JSON,
    and the parsed content of a readable JSON file otherwise. *)
Theorem load_metadata_total (st : disk) :
  load_metadata st =
  (Val match metadata_file st with
       | None => empty_document
       | Some f =>
           if readable f
           then match contents f with
                | Json v => v
                | NotJson => empty_document
                end
           else empty_document
       end, st).
Proof. apply load_metadata_cases. Qed.

Lemma load_metadata_document (st : disk) : load_metadata st = (Val (document st), st).
Proof. unfold document. rewrite load_metadata_cases. reflexivity. Qed.

Lemma document_same_file (st st' : disk) :
  metadata_file st' = metadata_file st -> document st' = document st.
Proof. intros H. unfold document. rewrite !load_metadata_cases, H. reflexivity. Qed.

(** ** Rejected uploads *)

Lemma upload_clip_rejected (e : env) (req : request) (st : disk) :
  (req = None ∨
   ∃ file, req = Some file ∧
           (filename file = "" ∨ allowed (lower (suffix (filename file))) = false)) ->
  ∃ body, upload_clip e req st = (Val (jsonify body 400), st).
Proof.
  intros [-> | (file & -> & H)]; unfold upload_clip; run.
  - eauto.
  - destruct (String.eqb_spec (filename file) "") as [E|E]; [eauto|].
    destruct H as [H|H]; [contradiction|].
    rewrite H. cbn [negb]. eauto.
Qed.

(** C4. An upload without a file part, with an empty file name, or whose
    lower-cased extension is not allowed is answered with status 400 and
    leaves the metadata file and the blobs as they were. *)
Theorem upload_rejected (e : env) (req : request) (st : disk) :
  (req = None ∨
   ∃ file, req = Some file ∧
           (filename file = "" ∨ allowed (lower (suffix (filename file))) = false)) ->
  ∃ body,
    upload_clip e req st = (Val (jsonify body 400), st)
    ∧ 400 <= status_code (jsonify body 400) < 500.
Proof.
  intros H. destruct (upload_clip_rejected e req st H) as [body Hb].
  exists body. split; [exact Hb|]. cbn [status_code]. lia.
Qed.

(** C9. An upload whose non-empty file name has no suffix is answered with
    the invalid-file-type error, status 400, and changes nothing. *)
Theorem upload_without_suffix (e : env) (file : FileStorage) (st : disk) :
  filename file ≠ "" ->
  suffix (filename file) = "" ->
  upload_clip e (Some file) st
  = (Val (jsonify (error_body ("Invalid file type. Allowed: " ++ allowed_repr)%string) 400),
     st).
Proof.
  intros Hne Hs. unfold upload_clip; run.
  destruct (String.eqb_spec (filename file) "") as [E|E]; [contradiction|].
  rewrite Hs. reflexivity.
Qed.

(** ** Hashing the stored blob *)

Lemma read_blocks_fed (data : bytes) (h : sha256_hash) :
  fed (read_blocks data h) = fed h ++ data.
Proof.
  funelim (read_blocks data h).
  - rewrite app_nil_r. reflexivity.
  - match goal with IH : fed (read_blocks _ _) = _ |- _ => rewrite IH end.
    unfold update. cbn [fed]. rewrite <- app_assoc, take_drop. reflexivity.
Qed.

(** Reading the blob block by block hashes its whole content. *)
Lemma hexdigest_read_blocks (data : bytes) :
  hexdigest (read_blocks data sha256) = SHA256.hexdigest data.
Proof. unfold hexdigest. rewrite read_blocks_fed. reflexivity. Qed.

(** ** Generated names *)

Lemma hex_digit_in (z : Z) : In (SHA256.hex_digit z) hex_chars.
Proof.
  unfold SHA256.hex_digit. fold hex_chars.
  destruct (nth_in_or_default (Z.to_nat z) hex_chars "0"%char) as [H|H]; [exact H|].
  rewrite H. simpl. auto.
Qed.

Lemma list_ascii_of_string_app (s t : string) :
  list_ascii_of_string (s ++ t) = list_ascii_of_string s ++ list_ascii_of_string t.
Proof. induction s as [|c s IH]; simpl; [reflexivity|]. rewrite IH. reflexivity. Qed.

Lemma hex_list (n : nat) (z : Z) :
  length (list_ascii_of_string (SHA256.hex n z)) = n
  ∧ Forall (fun c => In c hex_chars) (list_ascii_of_string (SHA256.hex n z)).
Proof.
  unfold SHA256.hex. rewrite list_ascii_of_string_of_list_ascii. split.
  - rewrite length_map, length_seq. reflexivity.
  - apply Forall_map, Forall_forall. intros i _. apply hex_digit_in.
Qed.

(** A generated identifier is eight hexadecimal digits. *)
Lemma generate_clip_id_hex (e : env) :
  length (list_ascii_of_string (generate_clip_id e)) = 8%nat
  ∧ Forall (fun c => In c hex_chars) (list_ascii_of_string (generate_clip_id e)).
Proof.
  unfold generate_clip_id, prefix, uuid_str.
  rewrite list_ascii_of_string_of_list_ascii, list_ascii_of_string_app.
  rewrite list_ascii_of_string_of_list_ascii.
  destruct (hex_list 32 (uuid4 (urandom e))) as [Hlen Hall].
  set (h := list_ascii_of_string (SHA256.hex 32 (uuid4 (urandom e)))) in *.
  assert (Hl : length (take (8 - 0) (drop 0 h)) = 8%nat)
    by (rewrite length_take, length_drop, Hlen; reflexivity).
  rewrite take_app_length' by exact Hl. split; [exact Hl|].
  apply Forall_take, Forall_drop, Hall.
Qed.

Lemma plain_of_chars (nm : string) :
  (3 <= length (list_ascii_of_string nm) <= 255)%nat ->
  Forall (fun c => name_char c = true) (list_ascii_of_string nm) ->
  plain nm = true.
Proof.
  intros [Hlo Hhi] Hall. unfold plain.
  assert (Hne : ∀ s, (length (list_ascii_of_string s) < 3)%nat -> String.eqb nm s = false).
  { intros s Hs. apply String.eqb_neq. intros ->. lia. }
  rewrite !Hne by (simpl; lia). cbn [negb andb].
  apply andb_true_intro. split.
  - apply forallb_forall. intros c Hc.
    rewrite Forall_forall in Hall. apply Hall, list_elem_of_In, Hc.
  - apply Nat.leb_le. exact Hhi.
Qed.

Lemma hex_char_plain (c : ascii) : In c hex_chars -> name_char c = true.
Proof.
  unfold hex_chars. simpl. intros H.
  repeat (destruct H as [<- | H]; [reflexivity|]). contradiction.
Qed.

(** The blob name [upload_clip] builds is the name of a file. *)
Lemma safe_filename_plain (e : env) (ext : string) :
  allowed ext = true -> plain (generate_clip_id e ++ ext) = true.
Proof.
  intros Hext. destruct (generate_clip_id_hex e) as [Hlen Hall].
  assert (Hx : (length (list_ascii_of_string ext) <= 5)%nat
               ∧ Forall (fun c => name_char c = true) (list_ascii_of_string ext)).
  { unfold allowed, allowed_extensions in Hext. cbn [existsb] in Hext.
    repeat (apply orb_prop in Hext; destruct Hext as [Hext | Hext];
            [apply String.eqb_eq in Hext; subst ext; split;
             [simpl; lia | repeat constructor]|]).
    discriminate. }
  destruct Hx as [Hxl Hxa].
  apply plain_of_chars; rewrite list_ascii_of_string_app.
  - rewrite length_app, Hlen. lia.
  - apply Forall_app. split; [|exact Hxa].
    eapply Forall_impl; [exact Hall|]. apply hex_char_plain.
Qed.

(** ** Accepted uploads *)

Lemma clips_of_inv (doc : value) (l : list value) :
  clips_of doc = Some l ->
  ∃ d, doc = JDict d ∧ dict_get "clips" d = Some (JList l).
Proof.
  destruct doc as [| | | | |?|d]; try discriminate. cbn [clips_of].
  destruct (dict_get "clips" d) as [[| | | | |l'|?]|] eqn:E; try discriminate.
  intros [= ->]. eauto.
Qed.

Lemma dict_get_set (k : string) (v : value) (d : list (string * value)) :
  dict_get k (dict_set k v d) = Some v.
Proof.
  induction d as [|[k' v'] d IH]; cbn [dict_set dict_get].
  - rewrite String.eqb_refl. reflexivity.
  - destruct (String.eqb_spec k' k) as [E|E]; cbn [dict_get].
    + rewrite String.eqb_refl. reflexivity.
    + destruct (String.eqb_spec k' k); [contradiction|]. exact IH.
Qed.

(** The entry an accepted upload appends. *)
Lemma upload_accepted (e : env) (file : FileStorage) (st : disk)
    (d : list (string * value)) (l : list value) :
  filename file ≠ "" ->
  allowed (lower (suffix (filename file))) = true ->
  document st = JDict d ->
  dict_get "clips" d = Some (JList l) ->
  can_save st = true ->
  let id := generate_clip_id e in
  let nm := (id ++ lower (suffix (filename file)))%string in
  let r := clip_data id nm (filename file) (now e) (Z.of_nat (length (stream file)))
                     (prefix 16 (SHA256.hexdigest (stream file))) in
  upload_clip e (Some file) st
  = (Val (jsonify (upload_ok id) 200),
     {| metadata_file :=
          Some {| readable := match metadata_file st with
                              | Some f => readable f
                              | None => true
                              end;
                  writable := true;
                  contents := Json (JDict (dict_set "clips" (JList (l ++ [r])) d)) |};
        uploads := <[nm := stream file]> (uploads st) |}).
Proof.
  intros Hne Hext Hdoc Hget Hsave id nm r.
  unfold upload_clip. run.
  destruct (String.eqb_spec (filename file) "") as [E|_]; [contradiction|].
  rewrite Hext. cbn [negb].
  unfold in_uploads. fold id. fold nm.
  replace (plain nm) with true by (symmetry; apply safe_filename_plain, Hext).
  unfold save, st_size, get_file_hash, open_rb.
  repeat (run; cbn [uploads metadata_file]; rewrite ?lookup_insert_eq).
  rewrite hexdigest_read_blocks. fold r.
  rewrite load_metadata_document.
  rewrite (document_same_file st) by reflexivity.
  rewrite Hdoc. cbn [getitem]. rewrite Hget. cbn [append setitem].
  unfold save_metadata, can_save in *. cbn [uploads metadata_file].
  destruct (metadata_file st) as [f|]; [rewrite Hsave|]; reflexivity.
Qed.

(** An upload answered with status 200 was an accepted one. *)
Lemma upload_200_inv (e : env) (req : request) (st st' : disk) (resp : response) :
  upload_clip e req st = (Val resp, st') ->
  status_code resp = 200 ->
  ∃ file l,
    req = Some file ∧ filename file ≠ ""
    ∧ allowed (lower (suffix (filename file))) = true
    ∧ clips_of (document st) = Some l
    ∧ can_save st = true.
Proof.
  unfold upload_clip. run.
  destruct req as [file|]; [|intros [= <- <-]; discriminate].
  destruct (String.eqb_spec (filename file) "") as [E|E]; [intros [= <- <-]; discriminate|].
  destruct (allowed (lower (suffix (filename file)))) eqn:Hext;
    cbn [negb]; [|intros [= <- <-]; discriminate].
  unfold in_uploads. rewrite (safe_filename_plain e _ Hext).
  unfold save, st_size, get_file_hash, open_rb.
  repeat (run; cbn [uploads metadata_file]; rewrite ?lookup_insert_eq).
  rewrite load_metadata_document, (document_same_file st) by reflexivity.
  unfold clips_of, can_save, save_metadata. cbn [uploads metadata_file].
  destruct (document st) as [| | | | |?|d]; cbn [getitem];
    try (intros [= <- <-]; discriminate).
  destruct (dict_get "clips" d) as [[| | | | |l|?]|]; cbn [append setitem];
    try (intros [= <- <-]; discriminate).
  destruct (metadata_file st) as [f|]; [destruct (writable f)|];
    try (intros [= <- <-]; discriminate);
    intros _ _; exists file, l; repeat split; assumption || reflexivity.
Qed.

(** C1. After an upload answered with status 200, the response body has
    [success] true and the generated identifier as [clip_id], and the
    metadata file holds
    the document that was loaded with exactly one entry appended; that
    entry carries the [clip_id] of the response, the byte length of the
    uploaded content as [file_size] and the first 16 hexadecimal digits of
    the content's SHA-256 digest as [file_hash]; and a readable metadata
    file makes the list endpoint return that document. *)
Theorem upload_then_list (e : env) (req : request) (st st' : disk) (resp : response) :
  upload_clip e req st = (Val resp, st') ->
  status_code resp = 200 ->
  ∃ file l r f' doc' id,
    req = Some file
    ∧ id = generate_clip_id e
    ∧ resp = jsonify (upload_ok id) 200
    ∧ getitem (upload_ok id) "success" = Val (JBool true)
    ∧ getitem (upload_ok id) "clip_id" = Val (JStr id)
    ∧ clips_of (document st) = Some l
    ∧ metadata_file st' = Some f' ∧ contents f' = Json doc'
    ∧ clips_of doc' = Some (l ++ [r])
    ∧ getitem r "clip_id" = Val (JStr id)
    ∧ getitem r "file_size" = Val (JInt (Z.of_nat (length (stream file))))
    ∧ getitem r "file_hash" = Val (JStr (prefix 16 (SHA256.hexdigest (stream file))))
    ∧ uploads st' !! stored_name r = Some (stream file)
    ∧ (readable f' = true -> list_clips st' = (Val (jsonify doc' 200), st')).
Proof.
  intros Hrun H200.
  destruct (upload_200_inv _ _ _ _ _ Hrun H200) as (file & l & -> & Hne & Hext & Hl & Hsave).
  destruct (clips_of_inv _ _ Hl) as (d & Hdoc & Hget).
  pose proof (upload_accepted e file st d l Hne Hext Hdoc Hget Hsave) as Heq.
  cbv zeta in Heq. rewrite Heq in Hrun. injection Hrun as <- <-.
  eexists file, l, _, _, _, _.
  split; [reflexivity|]. split; [reflexivity|]. split; [reflexivity|].
  split; [reflexivity|]. split; [reflexivity|]. split; [exact Hl|].
  split; [reflexivity|]. split; [reflexivity|].
  split; [cbn [clips_of]; rewrite dict_get_set; reflexivity|].
  split; [reflexivity|]. split; [reflexivity|]. split; [reflexivity|].
  split.
  - cbn [uploads]. unfold stored_name, clip_data. cbn. apply lookup_insert_eq.
  - cbn [readable]. intros Hr. unfold list_clips. run.
    rewrite load_metadata_cases. cbn [metadata_file readable contents].
    rewrite Hr. reflexivity.
Qed.

(** ** Scanning the entries *)

Lemma next_val (id : string) (l : list value) (c : value) :
  next id l = Val c ->
  c = default JNone (lookup_clip id l).
Proof.
  unfold lookup_clip. induction l as [|x l IH]; cbn [next List.find].
  - intros [= <-]. reflexivity.
  - unfold has_id at 1. destruct (getitem x "clip_id") as [v| |]; try discriminate.
    destruct (eq_str v id); [intros [= <-]; reflexivity | exact IH].
Qed.

Lemma next_keyed (id : string) (l : list value) :
  Forall keyed l -> next id l = Val (default JNone (lookup_clip id l)).
Proof.
  unfold lookup_clip. induction 1 as [|x l [v Hv] _ IH]; cbn [next List.find]; [reflexivity|].
  unfold has_id at 1. rewrite Hv. destruct (eq_str v id); [reflexivity | exact IH].
Qed.

Lemma others_val (id : string) (l kept : list value) :
  others id l = Val kept -> kept = without id l ∧ Forall keyed l.
Proof.
  unfold without. revert kept. induction l as [|x l IH]; cbn [others List.filter]; intros kept.
  - intros [= <-]. split; constructor.
  - unfold has_id at 1. destruct (getitem x "clip_id") as [v| |] eqn:Hv; try discriminate.
    destruct (others id l) as [k| |]; try discriminate.
    destruct (IH k eq_refl) as [-> Hall]. intros [= <-].
    split; [reflexivity|]. constructor; [exists v; exact Hv | exact Hall].
Qed.

Lemma others_keyed (id : string) (l : list value) :
  Forall keyed l -> others id l = Val (without id l).
Proof.
  unfold without. induction 1 as [|x l [v Hv] _ IH]; cbn [others List.filter]; [reflexivity|].
  unfold has_id at 1. rewrite Hv, IH. reflexivity.
Qed.

Lemma lookup_clip_Some (id : string) (l : list value) (c : value) :
  lookup_clip id l = Some c -> In c l ∧ has_id id c = true.
Proof. apply List.find_some. Qed.

Lemma lookup_clip_without (id : string) (l : list value) :
  lookup_clip id (without id l) = None.
Proof.
  unfold lookup_clip, without.
  destruct (List.find _ _) as [c|] eqn:E; [|reflexivity].
  apply List.find_some in E. destruct E as [Hin Hid].
  apply List.filter_In in Hin. destruct Hin as [_ Hn].
  rewrite Hid in Hn. discriminate.
Qed.

Lemma without_keyed (id : string) (l : list value) :
  Forall keyed l -> Forall keyed (without id l).
Proof.
  unfold without. rewrite !List.Forall_forall. intros H x Hx.
  apply List.filter_In in Hx. apply H, Hx.
Qed.

Lemma has_id_truthy (id : string) (c : value) : has_id id c = true -> truthy c = true.
Proof.
  unfold has_id. destruct c as [| | | | | |d]; cbn [getitem]; try discriminate.
  destruct d; [discriminate | reflexivity].
Qed.

Lemma is_record_keyed (c : value) : is_record c = true -> keyed c.
Proof.
  unfold is_record, keyed. destruct c as [| | | | | |d]; try discriminate. cbn [getitem].
  destruct (dict_get "clip_id" d) as [v|]; [eauto | discriminate].
Qed.

Lemma is_record_name (c : value) :
  is_record c = true ->
  getitem c "filename" = Val (JStr (stored_name c)) ∧ plain (stored_name c) = true.
Proof.
  unfold is_record, stored_name. destruct c as [| | | | | |d]; try discriminate. cbn [getitem].
  destruct (dict_get "clip_id" d); [|discriminate].
  destruct (dict_get "filename" d) as [[| | | |nm| |]|]; try discriminate. auto.
Qed.

Lemma records_inv (doc : value) (l : list value) :
  records doc = Some l ->
  clips_of doc = Some l ∧ Forall (fun c => is_record c = true) l.
Proof.
  unfold records. destruct (clips_of doc) as [l'|]; [|discriminate].
  destruct (forallb is_record l') eqn:E; [|discriminate]. intros [= <-].
  split; [reflexivity|]. apply List.Forall_forall. apply forallb_forall. exact E.
Qed.

(** ** Download *)

(** Every way a download ends on a document of records. *)
Lemma get_clip_cases (id : string) (conditional : bool) (st : disk) (l : list value) :
  records (document st) = Some l ->
  get_clip id conditional st
  = (match lookup_clip id l with
     | None => Val (jsonify (error_body "Clip not found") 404)
     | Some c =>
         match uploads st !! stored_name c with
         | None => Val (jsonify (error_body "File not found on server") 404)
         | Some _ =>
             match served st !! stored_name c with
             | None => Val (server_error NotFound)
             | Some data =>
                 if conditional then Beyond else Val (send_file (stored_name c) data)
             end
         end
     end, st).
Proof.
  intros Hrec. destruct (records_inv _ _ Hrec) as [Hclips Hall].
  destruct (clips_of_inv _ _ Hclips) as (d & Hdoc & Hget).
  unfold get_clip. run. rewrite load_metadata_document, Hdoc.
  cbn [getitem]. rewrite Hget. cbn [iter].
  rewrite next_keyed by (eapply Forall_impl; [exact Hall | apply is_record_keyed]).
  destruct (lookup_clip id l) as [c|] eqn:Hc; cbn [default from_option Datatypes.id]; run;
    [|reflexivity].
  destruct (lookup_clip_Some _ _ _ Hc) as [Hin Hid].
  rewrite (has_id_truthy _ _ Hid). cbn [negb].
  rewrite List.Forall_forall in Hall.
  destruct (is_record_name c (Hall c Hin)) as [Hnm Hplain].
  rewrite Hnm. unfold send_from_directory, join_uploads, in_uploads, exists_. run.
  rewrite Hplain.
  destruct (uploads st !! stored_name c) eqn:E; cbn [negb]; run; [|reflexivity].
  destruct (served st !! stored_name c); [destruct conditional|]; reflexivity.
Qed.

(** A download without [Range] or conditional header, served from the
    working directory's [uploads]. *)
Lemma get_clip_records (id : string) (st : disk) (l : list value) :
  records (document st) = Some l ->
  root_uploads = None ->
  get_clip id false st
  = (Val match lookup_clip id l with
         | None => jsonify (error_body "Clip not found") 404
         | Some c =>
             match uploads st !! stored_name c with
             | None => jsonify (error_body "File not found on server") 404
             | Some data => send_file (stored_name c) data
             end
         end, st).
Proof.
  intros Hrec Hroot. rewrite (get_clip_cases id false st l Hrec).
  unfold served. rewrite Hroot.
  destruct (lookup_clip id l) as [c|]; [|reflexivity].
  destruct (uploads st !! stored_name c); reflexivity.
Qed.


(** ** Delete *)

Lemma document_entries (st : disk) (d : list (string * value)) (l : list value) (c : value) :
  document st = JDict d -> dict_get "clips" d = Some (JList l) -> In c l ->
  ∃ f, metadata_file st = Some f ∧ readable f = true ∧ contents f = Json (JDict d).
Proof.
  unfold document. rewrite load_metadata_cases. cbn [fst].
  intros Hdoc Hget Hin.
  assert (Hne : empty_document ≠ JDict d).
  { intros [= <-]. cbn in Hget. injection Hget as <-. destruct Hin. }
  destruct (metadata_file st) as [f|]; [|congruence].
  destruct (readable f) eqn:Hr; [|congruence].
  destruct (contents f) as [|v] eqn:Hc; [congruence|]. subst v. eauto.
Qed.

(** Running [bind] step by step. *)
Lemma bind_val {A B} (m : M A) (k : A -> M B) (st st' : disk) (a : A) :
  m st = (Val a, st') -> bind m k st = k a st'.
Proof. intros H. unfold bind. rewrite H. reflexivity. Qed.

Lemma bind_val_inv {A B} (m : M A) (k : A -> M B) (st st' : disk) (b : B) :
  bind m k st = (Val b, st') ->
  ∃ a st0, m st = (Val a, st0) ∧ k a st0 = (Val b, st').
Proof.
  unfold bind. destruct (m st) as [[a| |] st0]; try discriminate. eauto.
Qed.

Lemma lift_val_inv {A} (o : outcome A) (st st' : disk) (a : A) :
  lift o st = (Val a, st') -> o = Val a ∧ st' = st.
Proof. unfold lift. intros [= -> ->]. auto. Qed.

Lemma try_except_answer (body : M response) (st st' : disk) (resp : response) :
  try_except body (fun e => ret (server_error e)) st = (Val resp, st') ->
  status_code resp ≠ 500 ->
  body st = (Val resp, st').
Proof.
  unfold try_except, ret. destruct (body st) as [[a| |] st0]; try discriminate.
  - auto.
  - intros [= <- <-]. cbn [status_code]. congruence.
Qed.

(** An entry is found only in a list: iterating a dict or a string gives
    strings, which cannot be subscripted with a string. *)
Lemma found_in_list (id : string) (v : value) (l : list value) (c : value) :
  iter v = Val l -> next id l = Val c -> truthy c = true ->
  v = JList l ∧ lookup_clip id l = Some c.
Proof.
  intros Hiter Hnext Htrue.
  assert (Hc : lookup_clip id l = Some c).
  { apply next_val in Hnext. destruct (lookup_clip id l); cbn in Hnext; subst c;
      [reflexivity | discriminate]. }
  split; [|exact Hc].
  destruct (lookup_clip_Some _ _ _ Hc) as [Hin Hid].
  destruct v as [| | | |s|l'|d]; try discriminate; cbn [iter] in Hiter;
    injection Hiter as <-; [|reflexivity|];
    apply List.in_map_iff in Hin; destruct Hin as (x & <- & _); discriminate.
Qed.

(** A delete answered with status 200 found an entry, removed its blob
    and wrote the document without the entries of that [clip_id]. *)
Lemma delete_200_inv (id : string) (st st' : disk) (resp : response) :
  delete_clip id st = (Val resp, st') ->
  status_code resp = 200 ->
  ∃ d l c nm,
    document st = JDict d ∧ dict_get "clips" d = Some (JList l)
    ∧ lookup_clip id l = Some c
    ∧ getitem c "filename" = Val (JStr nm) ∧ plain nm = true
    ∧ Forall keyed l
    ∧ resp = jsonify (delete_ok id) 200
    ∧ st' = {| metadata_file :=
                 Some {| readable := true; writable := true;
                         contents := Json (JDict (dict_set "clips" (JList (without id l)) d)) |};
               uploads := delete nm (uploads st) |}.
Proof.
  intros Hrun H200. unfold delete_clip in Hrun.
  apply try_except_answer in Hrun; [|rewrite H200; discriminate].
  apply bind_val_inv in Hrun as (metadata & st0 & Hload & Hrun).
  rewrite load_metadata_document in Hload. injection Hload as <- <-.
  apply bind_val_inv in Hrun as (clipsv & ? & H & Hrun). apply lift_val_inv in H as [Hclips ->].
  apply bind_val_inv in Hrun as (l & ? & H & Hrun). apply lift_val_inv in H as [Hiter ->].
  apply bind_val_inv in Hrun as (c & ? & H & Hrun). apply lift_val_inv in H as [Hnext ->].
  destruct (truthy c) eqn:Htrue; cbn [negb] in Hrun;
    [|unfold ret in Hrun; injection Hrun as <- <-; discriminate].
  destruct (found_in_list _ _ _ _ Hiter Hnext Htrue) as [-> Hc]. clear Hiter Hnext.
  destruct (document st) as [| | | | |?|d] eqn:Hdoc; try discriminate. cbn [getitem] in Hclips.
  destruct (dict_get "clips" d) as [v|] eqn:Hget; [|discriminate]. injection Hclips as ->.
  destruct (lookup_clip_Some _ _ _ Hc) as [Hin Hid].
  destruct (document_entries st d l c Hdoc Hget Hin) as (f & Hf & Hr & Hcont).
  apply bind_val_inv in Hrun as (v & ? & H & Hrun). apply lift_val_inv in H as [Hnm ->].
  apply bind_val_inv in Hrun as (filepath & st1 & Hjoin & Hrun).
  destruct v as [| | | |nm| |]; try discriminate. cbn [join_uploads] in Hjoin.
  unfold in_uploads in Hjoin.
  destruct (plain nm) eqn:Hplain; [|discriminate]. injection Hjoin as <- <-.
  apply bind_val_inv in Hrun as (found & st2 & Hex & Hrun).
  unfold exists_ in Hex. injection Hex as <- <-.
  apply bind_val_inv in Hrun as ([] & st3 & Hunlink & Hrun).
  assert (Hst3 : metadata_file st3 = metadata_file st ∧ uploads st3 = delete nm (uploads st)).
  { unfold unlink, ret in Hunlink.
    destruct (uploads st !! nm) eqn:Hblob; cbv beta iota in Hunlink;
      rewrite ?Hblob in Hunlink; injection Hunlink as <-; cbn; auto.
    split; [reflexivity|]. rewrite delete_id by exact Hblob. reflexivity. }
  destruct Hst3 as [Hmeta Hup]. clear Hunlink.
  apply bind_val_inv in Hrun as (v & ? & H & Hrun). apply lift_val_inv in H as [H ->].
  cbn [getitem] in H. rewrite Hget in H. injection H as <-.
  apply bind_val_inv in Hrun as (l' & ? & H & Hrun). apply lift_val_inv in H as [[= <-] ->].
  apply bind_val_inv in Hrun as (kept & ? & H & Hrun). apply lift_val_inv in H as [Hkept ->].
  destruct (others_val _ _ _ Hkept) as [-> Hkeyed].
  apply bind_val_inv in Hrun as (doc' & ? & H & Hrun). apply lift_val_inv in H as [[= <-] ->].
  apply bind_val_inv in Hrun as ([] & st4 & Hsave & Hrun).
  unfold ret in Hrun. injection Hrun as <- <-.
  unfold save_metadata in Hsave. rewrite Hmeta, Hf in Hsave.
  destruct (writable f); [|discriminate]. injection Hsave as <-.
  exists d, l, c, nm. rewrite Hr, Hup. repeat split; auto.
Qed.

Lemma without_no_id (id : string) (l : list value) :
  Forall (fun c => has_id id c = false) (without id l).
Proof.
  unfold without. apply List.Forall_forall. intros c Hc.
  apply List.filter_In in Hc. destruct Hc as [_ Hc].
  apply negb_true_iff. exact Hc.
Qed.

(** Neither handler finds an identifier that no entry carries. *)
Lemma get_clip_unknown (id : string) (conditional : bool) (st : disk) (l : list value) :
  clips_of (document st) = Some l -> Forall keyed l -> lookup_clip id l = None ->
  get_clip id conditional st = (Val (jsonify (error_body "Clip not found") 404), st).
Proof.
  intros Hclips Hkeyed Hnone.
  destruct (clips_of_inv _ _ Hclips) as (d & Hdoc & Hget).
  unfold get_clip. run. rewrite load_metadata_document, Hdoc.
  cbn [getitem]. rewrite Hget. cbn [iter].
  rewrite (next_keyed id l Hkeyed), Hnone. reflexivity.
Qed.

Lemma delete_clip_unknown (id : string) (st : disk) (l : list value) :
  clips_of (document st) = Some l -> Forall keyed l -> lookup_clip id l = None ->
  delete_clip id st = (Val (jsonify (error_body "Clip not found") 404), st).
Proof.
  intros Hclips Hkeyed Hnone.
  destruct (clips_of_inv _ _ Hclips) as (d & Hdoc & Hget).
  unfold delete_clip. run. rewrite load_metadata_document, Hdoc.
  cbn [getitem]. rewrite Hget. cbn [iter].
  rewrite (next_keyed id l Hkeyed), Hnone. reflexivity.
Qed.

(** C6. Deleting a [clip_id] that no entry of the document carries is
    answered with 404, not with a server error, and leaves the metadata
    file and the blobs exactly as they were. *)
Theorem delete_unknown (id : string) (st : disk) (l : list value) :
  clips_of (document st) = Some l -> Forall keyed l -> lookup_clip id l = None ->
  delete_clip id st = (Val (jsonify (error_body "Clip not found") 404), st).
Proof. apply delete_clip_unknown. Qed.

(** C10. A delete answered with status 200 keeps exactly the entries whose
    [clip_id] differs from the given one, in their order: however many
    entries carried it, none is left, and every other entry stays. *)
Theorem delete_removes_all (id : string) (st st' : disk) (resp : response) :
  delete_clip id st = (Val resp, st') ->
  status_code resp = 200 ->
  ∃ l kept,
    clips_of (document st) = Some l
    ∧ clips_of (document st') = Some kept
    ∧ kept = List.filter (fun c => negb (has_id id c)) l
    ∧ Forall (fun c => has_id id c = false) kept
    ∧ (∀ c, In c l -> has_id id c = false -> In c kept).
Proof.
  intros Hrun H200.
  destruct (delete_200_inv _ _ _ _ Hrun H200)
    as (d & l & c & nm & Hdoc & Hget & Hc & Hnm & Hplain & Hkeyed & -> & ->).
  exists l, (without id l).
  split; [rewrite Hdoc; cbn [clips_of]; rewrite Hget; reflexivity|].
  split.
  { unfold document. rewrite load_metadata_cases.
    cbn [fst metadata_file readable contents clips_of]. rewrite dict_get_set. reflexivity. }
  split; [reflexivity|]. split; [apply without_no_id|].
  intros x Hin Hx. unfold without. apply List.filter_In. rewrite Hx. auto.
Qed.

(** On a document of records, deleting an identifier that an entry carries
    succeeds when the metadata file can be written. *)
Lemma delete_found (id : string) (st : disk) (d : list (string * value))
    (l : list value) (c : value) :
  document st = JDict d -> dict_get "clips" d = Some (JList l) ->
  Forall (fun c => is_record c = true) l ->
  lookup_clip id l = Some c ->
  can_save st = true ->
  delete_clip id st
  = (Val (jsonify (delete_ok id) 200),
     {| metadata_file :=
          Some {| readable := true; writable := true;
                  contents := Json (JDict (dict_set "clips" (JList (without id l)) d)) |};
        uploads := delete (stored_name c) (uploads st) |}).
Proof.
  intros Hdoc Hget Hall Hc Hsave.
  destruct (lookup_clip_Some _ _ _ Hc) as [Hin Hid].
  destruct (document_entries st d l c Hdoc Hget Hin) as (f & Hf & Hr & Hcont).
  assert (Hkeyed : Forall keyed l)
    by (eapply Forall_impl; [exact Hall | apply is_record_keyed]).
  rewrite List.Forall_forall in Hall.
  destruct (is_record_name c (Hall c Hin)) as [Hnm Hplain].
  unfold can_save in Hsave. rewrite Hf in Hsave.
  unfold delete_clip. run. rewrite load_metadata_document, Hdoc.
  cbn [getitem]. rewrite Hget. cbn [iter].
  rewrite (next_keyed id l Hkeyed), Hc. cbn [default from_option Datatypes.id]. run.
  rewrite (has_id_truthy _ _ Hid). cbn [negb].
  rewrite Hnm. unfold join_uploads, in_uploads, exists_, unlink, save_metadata. run.
  rewrite Hplain, (others_keyed id l Hkeyed).
  destruct (uploads st !! stored_name c) eqn:Hblob; run; rewrite ?Hblob;
    cbn [metadata_file uploads]; rewrite Hf, Hsave, Hr; [reflexivity|].
  rewrite delete_id by exact Hblob. reflexivity.
Qed.

(** C2. On a document of records whose metadata file can be written,
    deleting a [clip_id] that an entry carries is answered with status
    200 whether or not the blob of that entry is still on the disk.  And
    whatever the disk, a delete answered with status 200 found an entry
    with that [clip_id]; afterwards the metadata file holds the document
    without the entries of that [clip_id], the entry's blob is gone and
    no other blob is touched, the download handler answers 404 "Clip not
    found" for that [clip_id], and the list endpoint returns the new
    document, none of whose entries has that [clip_id]. *)
Theorem delete_removes (id : string) (st : disk) :
  (∀ l c,
     records (document st) = Some l ->
     lookup_clip id l = Some c ->
     can_save st = true ->
     ∃ st', delete_clip id st = (Val (jsonify (delete_ok id) 200), st'))
  ∧ (∀ st' resp,
       delete_clip id st = (Val resp, st') ->
       status_code resp = 200 ->
       ∃ l c f' doc',
         clips_of (document st) = Some l ∧ lookup_clip id l = Some c
         ∧ resp = jsonify (delete_ok id) 200
         ∧ metadata_file st' = Some f' ∧ contents f' = Json doc'
         ∧ clips_of doc' = Some (without id l)
         ∧ uploads st' = delete (stored_name c) (uploads st)
         ∧ uploads st' !! stored_name c = None
         ∧ (∀ conditional, ∃ body,
              get_clip id conditional st' = (Val (jsonify body 404), st')
              ∧ getitem body "error" = Val (JStr "Clip not found"))
         ∧ list_clips st' = (Val (jsonify doc' 200), st')
         ∧ lookup_clip id (without id l) = None).
Proof.
  split.
  - intros l c Hrec Hc Hsave. destruct (records_inv _ _ Hrec) as [Hclips Hall].
    destruct (clips_of_inv _ _ Hclips) as (d & Hdoc & Hget).
    eexists. exact (delete_found id st d l c Hdoc Hget Hall Hc Hsave).
  - intros st' resp Hrun H200.
    destruct (delete_200_inv _ _ _ _ Hrun H200)
      as (d & l & c & nm & Hdoc & Hget & Hc & Hnm & Hplain & Hkeyed & -> & ->).
    assert (Hname : stored_name c = nm) by (unfold stored_name; rewrite Hnm; reflexivity).
    set (doc' := JDict (dict_set "clips" (JList (without id l)) d)).
    assert (Hclips' : clips_of doc' = Some (without id l))
      by (cbn [doc' clips_of]; rewrite dict_get_set; reflexivity).
    eexists l, c, _, doc'. rewrite Hname. cbn [metadata_file uploads contents].
    split; [rewrite Hdoc; cbn [clips_of]; rewrite Hget; reflexivity|].
    split; [exact Hc|]. split; [reflexivity|]. split; [reflexivity|].
    split; [reflexivity|]. split; [exact Hclips'|]. split; [reflexivity|].
    split; [apply lookup_delete_eq|].
    split; [|split; [|apply lookup_clip_without]].
    + intros conditional. exists (error_body "Clip not found"). split; [|reflexivity].
      apply get_clip_unknown with (l := without id l).
      * unfold document. rewrite load_metadata_cases. exact Hclips'.
      * apply without_keyed, Hkeyed.
      * apply lookup_clip_without.
    + unfold list_clips. run. rewrite load_metadata_cases. reflexivity.
Qed.

(** ** The server against the records of the specification *)

Lemma has_id_to_value (id : string) (r : ClipRecord) :
  has_id id (to_value r) = String.eqb (clip_id r) id.
Proof. reflexivity. Qed.

Lemma without_to_value (id : string) (rs : list ClipRecord) :
  without id (map to_value rs) = map to_value (spec_delete id rs).
Proof.
  unfold without, spec_delete. induction rs as [|r rs IH]; [reflexivity|].
  cbn [map List.filter]. rewrite filter_cons, has_id_to_value.
  destruct (String.eqb_spec (clip_id r) id) as [E|E]; cbn [negb];
    destruct (decide (clip_id r ≠ id)) as [D|D]; try contradiction.
  - exact IH.
  - cbn [map]. rewrite IH. reflexivity.
Qed.

Lemma without_absent (id : string) (l : list value) :
  lookup_clip id l = None -> without id l = l.
Proof.
  unfold lookup_clip, without. induction l as [|c l IH]; [reflexivity|].
  cbn [List.find List.filter]. destruct (has_id id c); [discriminate|].
  intros H. cbn [negb]. rewrite IH by exact H. reflexivity.
Qed.

Lemma to_value_inj (rs rs' : list ClipRecord) :
  map to_value rs = map to_value rs' -> rs = rs'.
Proof.
  revert rs'. induction rs as [|r rs IH]; intros [|r' rs']; try discriminate; [reflexivity|].
  cbn [map]. intros [= H1 H2 H3 H4 H5 H6 H7 Hrest].
  destruct r, r'. cbn in *. subst. f_equal. apply IH, Hrest.
Qed.

Lemma consistent_document (st : disk) (rs : list ClipRecord) :
  consistent st rs -> document st = spec_document rs.
Proof.
  intros [Hf _]. unfold document. rewrite load_metadata_cases, Hf. reflexivity.
Qed.

Lemma consistent_records (st : disk) (rs : list ClipRecord) :
  consistent st rs -> Forall (fun c => is_record c = true) (map to_value rs).
Proof.
  intros [_ Hall]. apply Forall_map. eapply Forall_impl; [exact Hall|].
  intros r Hr. exact Hr.
Qed.

Lemma list_clips_state (st : disk) : snd (list_clips st) = st.
Proof. unfold list_clips. run. rewrite load_metadata_document. reflexivity. Qed.

(** Each request keeps the disk in agreement with the records the
    specification implies. *)
Lemma handle_consistent (o : op) (st : disk) (rs : list ClipRecord) :
  consistent st rs -> consistent (snd (handle o st)) (spec_step rs o).
Proof.
  intros Hc. pose proof (consistent_document st rs Hc) as Hdoc.
  pose proof (consistent_records st rs Hc) as Hrec.
  destruct Hc as [Hf Hplain].
  destruct o as [e req| |id conditional|id]; cbn [handle spec_step].
  - (* upload *)
    destruct req as [file|]; cbn [spec_upload].
    2:{ destruct (upload_clip_rejected e None st) as [b ->]; [auto|]. split; assumption. }
    destruct (String.eqb_spec (filename file) "") as [E|E]; cbn [orb].
    { destruct (upload_clip_rejected e (Some file) st) as [b ->]; [eauto|]. split; assumption. }
    destruct (allowed (lower (suffix (filename file)))) eqn:Hext; cbn [negb].
    2:{ destruct (upload_clip_rejected e (Some file) st) as [b ->]; [eauto|]. split; assumption. }
    rewrite (upload_accepted e file st [("clips", JList (map to_value rs))] (map to_value rs));
      try assumption; try reflexivity.
    2:{ unfold can_save. rewrite Hf. reflexivity. }
    cbn [snd]. split.
    + cbn [metadata_file]. rewrite Hf. cbn [readable dict_set String.eqb Ascii.eqb Bool.eqb].
      unfold spec_document. rewrite map_app. reflexivity.
    + apply Forall_app. split; [exact Hplain|]. constructor; [|constructor].
      cbn [stored_filename]. apply safe_filename_plain, Hext.
  - rewrite list_clips_state. split; assumption.
  - rewrite (get_clip_cases id conditional st (map to_value rs)).
    + split; assumption.
    + unfold records. rewrite Hdoc. cbn [spec_document clips_of dict_get String.eqb Ascii.eqb Bool.eqb].
      replace (forallb is_record (map to_value rs)) with true; [reflexivity|].
      symmetry. apply forallb_forall. apply List.Forall_forall. exact Hrec.
  - destruct (lookup_clip id (map to_value rs)) as [c|] eqn:Hc.
    + rewrite (delete_found id st [("clips", JList (map to_value rs))] (map to_value rs) c);
        try assumption; try reflexivity.
      2:{ unfold can_save. rewrite Hf. reflexivity. }
      cbn [snd]. split.
      * cbn [metadata_file dict_set String.eqb Ascii.eqb Bool.eqb].
        rewrite without_to_value. reflexivity.
      * unfold spec_delete. rewrite Forall_forall in Hplain |- *.
        intros r Hr. apply list_elem_of_filter in Hr. apply Hplain, Hr.
    + rewrite (delete_clip_unknown id st (map to_value rs)); try assumption.
      * cbn [snd]. assert (Hsame : spec_delete id rs = rs).
        { apply to_value_inj. rewrite <- without_to_value. apply without_absent, Hc. }
        rewrite Hsame. split; assumption.
      * rewrite Hdoc. reflexivity.
      * eapply Forall_impl; [exact Hrec | apply is_record_keyed].
Qed.

Lemma serve_consistent (ops : list op) (st : disk) (rs : list ClipRecord) :
  consistent st rs -> consistent (serve ops st) (fold_left spec_step ops rs).
Proof.
  revert st rs. induction ops as [|o ops IH]; intros st rs Hc; [exact Hc|].
  cbn [serve fold_left]. apply IH, handle_consistent, Hc.
Qed.

Lemma startup_consistent (blobs : gmap string bytes) :
  consistent (startup {| metadata_file := None; uploads := blobs |}) [].
Proof. split; [reflexivity | constructor]. Qed.

(** C5. After any sequence of requests served one after the other by a
    server started without a metadata file, loading the metadata file
    gives exactly the document of the records the sequence implies; and
    there, saving any document and loading it again gives that document. *)
Theorem metadata_round_trip (blobs : gmap string bytes) (ops : list op) :
  let st := serve ops (startup {| metadata_file := None; uploads := blobs |}) in
  load_metadata st = (Val (spec_document (spec_records ops)), st)
  ∧ ∀ doc, ∃ st', save_metadata doc st = (Val tt, st')
                  ∧ load_metadata st' = (Val doc, st').
Proof.
  intros st.
  pose proof (serve_consistent ops _ _ (startup_consistent blobs)) as Hc.
  fold st in Hc. fold (spec_records ops) in Hc. split.
  - rewrite load_metadata_document, (consistent_document _ _ Hc). reflexivity.
  - intros doc. destruct Hc as [Hf _]. unfold save_metadata. rewrite Hf.
    cbn [writable readable]. eexists. split; [reflexivity|].
    rewrite load_metadata_cases. reflexivity.
Qed.

(** ** Reachable states *)

Lemma serve_reachable (ops : list op) (st : disk) :
  reachable st -> reachable (serve ops st).
Proof.
  revert st. induction ops as [|o ops IH]; intros st H; [exact H|].
  cbn [serve]. apply IH, reachable_step, H.
Qed.

(** Every reachable disk agrees with some list of records, so that the
    handlers find a writable file holding a document of records. *)
Lemma reachable_consistent (st : disk) :
  reachable st -> ∃ rs, consistent st rs.
Proof.
  induction 1 as [blobs | o st _ [rs IH]].
  - exists []. apply startup_consistent.
  - exists (spec_step rs o). apply handle_consistent, IH.
Qed.

Lemma reachable_records (st : disk) :
  reachable st -> ∃ l, records (document st) = Some l ∧ can_save st = true.
Proof.
  intros H. destruct (reachable_consistent st H) as [rs Hc].
  exists (map to_value rs). split.
  - unfold records. rewrite (consistent_document _ _ Hc).
    cbn [spec_document clips_of dict_get String.eqb Ascii.eqb Bool.eqb].
    replace (forallb is_record (map to_value rs)) with true; [reflexivity|].
    symmetry. apply forallb_forall. apply List.Forall_forall.
    apply (consistent_records _ _ Hc).
  - destruct Hc as [Hf _]. unfold can_save. rewrite Hf. reflexivity.
Qed.

(** ** Identifiers *)

(** C3 (fails on the code). Two uploads whose random bytes agree on the
    first four give the same [clip_id]: the reachable disk after them
    holds two entries with one identifier, and the second upload has
    overwritten the first one's blob. *)
Theorem clip_id_collision :
  let e1 := {| urandom := 0x5eedc0de0123456789abcdef01234567; now := "2024-05-01T10:00:00" |} in
  let e2 := {| urandom := 0x5eedc0defedcba9876543210fedcba98; now := "2024-05-01T10:00:01" |} in
  let f1 := {| filename := "first.mp4"; stream := list_byte_of_string "one" |} in
  let f2 := {| filename := "second.mp4"; stream := list_byte_of_string "two" |} in
  let st := serve [Upload e1 (Some f1); Upload e2 (Some f2)]
                  (startup {| metadata_file := None; uploads := ∅ |}) in
  reachable st
  ∧ (∃ l, clips_of (document st) = Some l
          ∧ ids l = [Val (JStr "5eedc0de"); Val (JStr "5eedc0de")])
  ∧ ¬ unique_ids st
  ∧ uploads st = {[ "5eedc0de.mp4" := list_byte_of_string "two" ]}.
Proof.
  intros e1 e2 f1 f2 st.
  assert (Hl : ∃ l, clips_of (document st) = Some l
                    ∧ ids l = [Val (JStr "5eedc0de"); Val (JStr "5eedc0de")]).
  { eexists. split; [vm_compute; reflexivity | reflexivity]. }
  split; [apply serve_reachable, reachable_start|]. split; [exact Hl|]. split.
  - intros Huniq. destruct Hl as (l & Hl & Hids).
    specialize (Huniq l Hl). rewrite Hids in Huniq.
    apply NoDup_cons_1_1 in Huniq. apply Huniq. left.
  - vm_compute. reflexivity.
Qed.

(** The identifier is made of the first four random bytes only: the bits
    [uuid4] forces lie below them. *)
Lemma uuid4_high_bits (r n : Z) : 96 <= n -> Z.testbit (uuid4 r) n = Z.testbit r n.
Proof.
  intros Hn. unfold uuid4.
  assert (Hmask : ∀ a k, 0 <= a -> Z.log2 a < 20 -> 0 <= k <= 76 ->
                         Z.testbit (Z.shiftl a k) n = false).
  { intros a k Ha Hlog Hk. rewrite Z.shiftl_spec by lia.
    apply Z.bits_above_log2; lia. }
  rewrite Z.lor_spec, Z.ldiff_spec, Z.lor_spec, Z.ldiff_spec.
  rewrite !Hmask by (cbn; lia).
  cbn [negb]. rewrite !andb_true_r, !orb_false_r. reflexivity.
Qed.

Lemma generate_clip_id_bits (e : env) :
  generate_clip_id e = SHA256.hex 8 (Z.shiftr (urandom e) 96).
Proof.
  unfold generate_clip_id, prefix, uuid_str.
  rewrite list_ascii_of_string_app, list_ascii_of_string_of_list_ascii.
  destruct (hex_list 32 (uuid4 (urandom e))) as [Hlen _].
  rewrite take_app_length' by (rewrite length_take, length_drop, Hlen; reflexivity).
  unfold SHA256.hex. rewrite list_ascii_of_string_of_list_ascii. f_equal.
  change (take (8 - 0) (drop 0 (map ?f (seq 0 32)))) with (map f (seq 0 8)).
  apply map_ext_in. intros i Hi. apply in_seq in Hi. f_equal.
  rewrite Z.shiftr_shiftr by lia.
  apply Z.bits_inj'. intros n Hn.
  rewrite !Z.land_spec, !Z.shiftr_spec by lia. f_equal.
  rewrite uuid4_high_bits by lia. f_equal. lia.
Qed.

(** Uploads whose random bytes agree on the first four get one identifier. *)
Lemma generate_clip_id_collides (e1 e2 : env) :
  Z.shiftr (urandom e1) 96 = Z.shiftr (urandom e2) 96 ->
  generate_clip_id e1 = generate_clip_id e2.
Proof. intros H. rewrite !generate_clip_id_bits, H. reflexivity. Qed.

(** Identifiers stay distinct as long as every accepted upload draws one
    that no stored record carries; deletes never break distinctness. *)
Lemma distinct_ids_step (o : op) (rs : list ClipRecord) :
  NoDup (map clip_id rs) ->
  (∀ e req, o = Upload e req -> generate_clip_id e ∉ map clip_id rs) ->
  NoDup (map clip_id (spec_step rs o)).
Proof.
  intros Hnd Hfresh. destruct o as [e req| |id conditional|id]; cbn [spec_step]; try exact Hnd.
  - unfold spec_upload. destruct req as [file|]; [|exact Hnd].
    destruct (String.eqb (filename file) "" || negb (allowed (lower (suffix (filename file)))));
      [exact Hnd|].
    rewrite map_app. cbn [map clip_id].
    apply NoDup_app. split; [exact Hnd|]. split.
    + intros x Hx Hx'. apply list_elem_of_singleton in Hx'. subst x.
      exact (Hfresh e (Some file) eq_refl Hx).
    + apply NoDup_singleton.
  - unfold spec_delete. induction rs as [|r rs IH]; [constructor|].
    rewrite filter_cons. cbn [map] in Hnd. apply NoDup_cons in Hnd. destruct Hnd as [Hr Hnd].
    destruct (decide (clip_id r ≠ id)); [|apply IH; [exact Hnd | intros ? ? [=]]].
    cbn [map]. apply NoDup_cons. split; [|apply IH; [exact Hnd | intros ? ? [=]]].
    intros Hin. apply Hr. apply list_elem_of_fmap in Hin. destruct Hin as (r' & Hid & Hr').
    apply list_elem_of_filter in Hr'. apply list_elem_of_fmap. exists r'. tauto.
Qed.

(* ===================================================================== *)
(** * Further properties of the handlers and their helpers *)
(* ===================================================================== *)

(** ** [get_file_hash] *)

Lemma round_length (acc : list Z * list Z) (k : Z) :
  length (fst acc) = 8%nat -> length (fst (SHA256.round acc k)) = 8%nat.
Proof.
  destruct acc as [s w]. cbn [fst].
  destruct s as [|a [|b [|c [|d [|e [|f [|g [|h [|]]]]]]]]]; try discriminate.
  intros _. reflexivity.
Qed.

Lemma rounds_length (ks : list Z) (acc : list Z * list Z) :
  length (fst acc) = 8%nat -> length (fst (fold_left SHA256.round ks acc)) = 8%nat.
Proof.
  revert acc. induction ks as [|k ks IH]; intros acc H; [exact H|].
  cbn [fold_left]. apply IH, round_length, H.
Qed.

Lemma blocks_length (fuel : nat) (h ws : list Z) :
  length h = 8%nat -> length (SHA256.blocks fuel h ws) = 8%nat.
Proof.
  revert h ws. induction fuel as [|fuel IH]; intros h ws H; [exact H|].
  destruct ws as [|w ws]; [exact H|]. cbn [SHA256.blocks]. apply IH.
  unfold SHA256.compress. rewrite length_zip_with, rounds_length by exact H. lia.
Qed.

Lemma digest_length (msg : bytes) : length (SHA256.digest msg) = 8%nat.
Proof. unfold SHA256.digest. apply blocks_length. reflexivity. Qed.

Lemma concat_hex (n : nat) (l : list Z) :
  length (list_ascii_of_string (String.concat "" (map (SHA256.hex n) l))) = (n * length l)%nat
  ∧ Forall (fun c => In c hex_chars)
           (list_ascii_of_string (String.concat "" (map (SHA256.hex n) l))).
Proof.
  induction l as [|x l [IHlen IHall]]; [split; [cbn; lia | constructor]|].
  destruct (hex_list n x) as [Hlen Hall].
  destruct l as [|y l]; cbn [map String.concat length].
  - split; [lia | exact Hall].
  - cbn [map String.concat length] in IHlen, IHall.
    rewrite !list_ascii_of_string_app. cbn [list_ascii_of_string app]. split.
    + rewrite length_app, Hlen, IHlen. cbn [length]. lia.
    + apply Forall_app. split; assumption.
Qed.

Lemma string_length_list (s : string) : String.length s = length (list_ascii_of_string s).
Proof. induction s as [|c s IH]; cbn; [reflexivity | rewrite IH; reflexivity]. Qed.

(** The truncated digest is sixteen hexadecimal digits. *)
Lemma hash_prefix_format (data : bytes) :
  String.length (prefix 16 (SHA256.hexdigest data)) = 16%nat
  ∧ Forall (fun c => In c hex_chars)
           (list_ascii_of_string (prefix 16 (SHA256.hexdigest data))).
Proof.
  destruct (concat_hex 8 (SHA256.digest data)) as [Hlen Hall].
  rewrite digest_length in Hlen. fold (SHA256.hexdigest data) in Hlen, Hall.
  rewrite string_length_list. unfold prefix.
  rewrite list_ascii_of_string_of_list_ascii. split.
  - rewrite length_take, Hlen. reflexivity.
  - apply Forall_take, Hall.
Qed.

(** X1. [get_file_hash] of a stored blob returns the first sixteen
    hexadecimal digits of the SHA-256 digest of its whole content, however
    the content falls into blocks of 4096 bytes, and raises
    [FileNotFoundError] when there is no such blob; it leaves the disk as
    it is. *)
Theorem get_file_hash_whole (filepath : string) (st : disk) :
  get_file_hash filepath st
  = (match uploads st !! filepath with
     | Some data => Val (prefix 16 (SHA256.hexdigest data))
     | None => Exc FileNotFoundError
     end, st).
Proof.
  unfold get_file_hash, open_rb. run.
  destruct (uploads st !! filepath) as [data|]; [|reflexivity].
  rewrite hexdigest_read_blocks. reflexivity.
Qed.

(** X2. Whatever [get_file_hash] returns is exactly sixteen characters
    long, each of them a lower-case hexadecimal digit. *)
Theorem get_file_hash_format (filepath h : string) (st st' : disk) :
  get_file_hash filepath st = (Val h, st') ->
  String.length h = 16%nat ∧ Forall (fun c => In c hex_chars) (list_ascii_of_string h).
Proof.
  unfold get_file_hash, open_rb. run.
  destruct (uploads st !! filepath) as [data|]; [|discriminate].
  rewrite hexdigest_read_blocks. intros [= <- _]. apply hash_prefix_format.
Qed.

(** ** [generate_clip_id] *)

(** X3. A generated identifier is exactly eight characters long, each of
    them a lower-case hexadecimal digit (never the hyphen of the uuid). *)
Theorem clip_id_format (e : env) :
  String.length (generate_clip_id e) = 8%nat
  ∧ Forall (fun c => In c hex_chars) (list_ascii_of_string (generate_clip_id e)).
Proof. rewrite string_length_list. apply generate_clip_id_hex. Qed.

Lemma hex_chars_NoDup : NoDup hex_chars.
Proof. apply (bool_decide_unpack _). vm_compute. reflexivity. Qed.

Lemma hex_digit_inj (x y : Z) :
  0 <= x < 16 -> 0 <= y < 16 -> SHA256.hex_digit x = SHA256.hex_digit y -> x = y.
Proof.
  intros Hx Hy H. unfold SHA256.hex_digit in H. fold hex_chars in H.
  assert (Z.to_nat x = Z.to_nat y); [|lia].
  apply (proj1 (List.NoDup_nth hex_chars "0"%char)) in H; [exact H | | |].
  - apply NoDup_ListNoDup, hex_chars_NoDup.
  - change (length hex_chars) with 16%nat. lia.
  - change (length hex_chars) with 16%nat. lia.
Qed.

Lemma nibble_bound (z : Z) : 0 <= Z.land z 0xf < 16.
Proof.
  change 0xf with (Z.ones 4). rewrite Z.land_ones by lia.
  apply Z.mod_pos_bound. lia.
Qed.

Lemma hex8_low_bits (a : Z) : SHA256.hex 8 (Z.land a SHA256.mask32) = SHA256.hex 8 a.
Proof.
  unfold SHA256.hex. f_equal. apply map_ext_in. intros i Hi. apply in_seq in Hi. f_equal.
  apply Z.bits_inj'. intros n Hn.
  rewrite !Z.land_spec, !Z.shiftr_spec, Z.land_spec by lia.
  destruct (Z.ltb_spec n 4) as [Hlt|Hge].
  - change SHA256.mask32 with (Z.ones 32). rewrite (Z.ones_spec_low 32) by lia.
    rewrite andb_true_r. reflexivity.
  - change 0xf with (Z.ones 4). rewrite (Z.ones_spec_high 4) by lia.
    rewrite !andb_false_r. reflexivity.
Qed.

Lemma hex8_inj (a b : Z) :
  SHA256.hex 8 a = SHA256.hex 8 b -> Z.land a SHA256.mask32 = Z.land b SHA256.mask32.
Proof.
  unfold SHA256.hex. intros H. apply (f_equal list_ascii_of_string) in H.
  rewrite !list_ascii_of_string_of_list_ascii in H.
  pose proof (proj1 List.map_ext_in_iff H) as Hd. clear H.
  apply Z.bits_inj'. intros n Hn. rewrite !Z.land_spec.
  change SHA256.mask32 with (Z.ones 32).
  destruct (Z.ltb_spec n 32) as [Hlt|Hge].
  2:{ rewrite (Z.ones_spec_high 32) by lia. rewrite !andb_false_r. reflexivity. }
  rewrite (Z.ones_spec_low 32) by lia. rewrite !andb_true_r.
  pose proof (Z.div_mod n 4 ltac:(lia)) as Hdm.
  pose proof (Z.mod_pos_bound n 4 ltac:(lia)) as Hmod.
  specialize (Hd (7 - Z.to_nat (n / 4))%nat).
  assert (Hin : In (7 - Z.to_nat (n / 4))%nat (seq 0 8)) by (apply in_seq; lia).
  specialize (Hd Hin). apply hex_digit_inj in Hd; try apply nibble_bound.
  apply (f_equal (fun z => Z.testbit z (n mod 4))) in Hd.
  rewrite !Z.land_spec, !Z.shiftr_spec in Hd by lia.
  change 0xf with (Z.ones 4) in Hd. rewrite (Z.ones_spec_low 4) in Hd by lia.
  rewrite !andb_true_r in Hd.
  replace (n mod 4 + 4 * Z.of_nat (8 - 1 - (7 - Z.to_nat (n / 4)))) with n in Hd by lia.
  exact Hd.
Qed.

(** X4. Two uploads get the same identifier exactly when their random
    bytes agree on the first four of the sixteen: the identifier carries 32
    of the 122 random bits of the uuid. *)
Theorem clip_id_same_iff (e1 e2 : env) :
  generate_clip_id e1 = generate_clip_id e2
  ↔ Z.land (Z.shiftr (urandom e1) 96) 0xffffffff = Z.land (Z.shiftr (urandom e2) 96) 0xffffffff.
Proof.
  rewrite !generate_clip_id_bits. split.
  - apply hex8_inj.
  - intros H. rewrite <- (hex8_low_bits (Z.shiftr (urandom e1) 96)).
    rewrite <- (hex8_low_bits (Z.shiftr (urandom e2) 96)).
    unfold SHA256.mask32. rewrite H. reflexivity.
Qed.

(** ** Effects on the disk *)

Lemma changes_ret {A} (R : disk -> disk -> Prop) `{!Reflexive R} (a : A) :
  changes R (ret a).
Proof. intros st. reflexivity. Qed.

Lemma changes_raise {A} (R : disk -> disk -> Prop) `{!Reflexive R} (e : exn) :
  changes R (@raise A e).
Proof. intros st. reflexivity. Qed.

Lemma changes_lift {A} (R : disk -> disk -> Prop) `{!Reflexive R} (o : outcome A) :
  changes R (lift o).
Proof. intros st. reflexivity. Qed.

Lemma changes_bind {A B} (R : disk -> disk -> Prop) `{!Transitive R}
    (m : M A) (k : A -> M B) :
  changes R m -> (∀ a, changes R (k a)) -> changes R (bind m k).
Proof.
  intros Hm Hk st. unfold bind. specialize (Hm st).
  destruct (m st) as [[a| |] st1]; cbn [snd] in *; [|exact Hm|exact Hm].
  etransitivity; [exact Hm | apply Hk].
Qed.

Lemma changes_try_except {A} (R : disk -> disk -> Prop) `{!Transitive R}
    (body : M A) (handler : exn -> M A) :
  changes R body -> (∀ e, changes R (handler e)) -> changes R (try_except body handler).
Proof.
  intros Hm Hk st. unfold try_except. specialize (Hm st).
  destruct (body st) as [[a| |] st1]; cbn [snd] in *; [exact Hm| |exact Hm].
  etransitivity; [exact Hm | apply Hk].
Qed.

Lemma changes_load_metadata (R : disk -> disk -> Prop) `{!Reflexive R} :
  changes R load_metadata.
Proof. intros st. rewrite load_metadata_document. reflexivity. Qed.

Lemma changes_join_uploads (R : disk -> disk -> Prop) `{!Reflexive R} (v : value) :
  changes R (join_uploads v).
Proof.
  intros st. unfold join_uploads, in_uploads, raise.
  destruct v; try reflexivity. destruct (plain s); reflexivity.
Qed.

Lemma changes_exists (R : disk -> disk -> Prop) `{!Reflexive R} (filepath : string) :
  changes R (exists_ filepath).
Proof. intros st. reflexivity. Qed.

Lemma changes_send_from_directory (R : disk -> disk -> Prop)
    `{!Reflexive R} `{!Transitive R} (path : value) (conditional : bool) :
  changes R (send_from_directory path conditional).
Proof.
  unfold send_from_directory. apply changes_bind; [exact _ | apply changes_join_uploads; exact _ |].
  intros filepath st. destruct (served st !! filepath); [destruct conditional|]; reflexivity.
Qed.

(** Proves [changes R m] along the structure of [m]. *)
Ltac effects :=
  repeat first
    [ apply changes_ret; exact _
    | apply changes_raise; exact _
    | apply changes_lift; exact _
    | apply changes_load_metadata; exact _
    | apply changes_join_uploads; exact _
    | apply changes_exists; exact _
    | apply changes_send_from_directory; exact _
    | apply changes_try_except; [exact _ | | intros ?]
    | apply changes_bind; [exact _ | | intros ?]
    | match goal with
      | |- changes _ (if ?b then _ else _) => destruct b
      end ].

(** X5. The download handler never changes the disk, whatever the
    metadata file holds and whatever it answers (the blob, 404, 500). *)
Theorem get_clip_read_only (id : string) (conditional : bool) (st : disk) :
  snd (get_clip id conditional st) = st.
Proof.
  symmetry. revert st. change (changes eq (get_clip id conditional)).
  unfold get_clip. effects.
Qed.

Lemma get_clip_state (id : string) (conditional : bool) (st : disk) :
  snd (get_clip id conditional st) = st.
Proof.
  symmetry. revert st. change (changes eq (get_clip id conditional)).
  unfold get_clip. effects.
Qed.

(** X6. The list endpoint always answers 200 with the document
    [load_metadata] gives, so with the empty document when the metadata
    file is missing, unreadable or not JSON; it never answers 500 and
    never changes the disk. *)
Theorem list_clips_always (st : disk) :
  list_clips st = (Val (jsonify (document st) 200), st)
  ∧ ((metadata_file st = None
      ∨ ∃ f, metadata_file st = Some f ∧ (readable f = false ∨ contents f = NotJson)) ->
     list_clips st = (Val (jsonify empty_document 200), st)).
Proof.
  assert (H : list_clips st = (Val (jsonify (document st) 200), st)).
  { unfold list_clips. run. rewrite load_metadata_document. reflexivity. }
  split; [exact H|].
  intros Hbad. rewrite H. unfold document. rewrite load_metadata_cases. cbn [fst].
  destruct Hbad as [-> | (f & -> & [-> | Hc])]; [reflexivity | reflexivity |].
  rewrite Hc. destruct (readable f); reflexivity.
Qed.

#[local] Instance only_removes_blobs_refl : Reflexive only_removes_blobs.
Proof. intros st. unfold only_removes_blobs. reflexivity. Qed.

#[local] Instance only_removes_blobs_trans : Transitive only_removes_blobs.
Proof. intros a b c Hab Hbc. unfold only_removes_blobs in *. etransitivity; eassumption. Qed.

Lemma changes_unlink (filepath : string) : changes only_removes_blobs (unlink filepath).
Proof.
  intros st. unfold unlink, only_removes_blobs.
  destruct (uploads st !! filepath); cbn [snd uploads]; [apply delete_subseteq | reflexivity].
Qed.

Lemma changes_save_metadata (data : value) : changes only_removes_blobs (save_metadata data).
Proof.
  intros st. unfold save_metadata, only_removes_blobs.
  destruct (metadata_file st) as [f|]; [destruct (writable f)|]; reflexivity.
Qed.

(** X7. A delete never creates or alters a blob, whatever the metadata
    file holds and whatever it answers: every blob on the disk afterwards
    was there before with the same content. *)
Theorem delete_clip_only_removes (id : string) (st : disk) :
  uploads (snd (delete_clip id st)) ⊆ uploads st.
Proof.
  revert st. change (changes only_removes_blobs (delete_clip id)).
  unfold delete_clip. effects.
  - apply changes_unlink.
  - apply changes_save_metadata.
Qed.

(** ** Uploads that pass the gates *)

(** Every way an upload with a non-empty name and an allowed extension
    can end: the blob is written first, then the metadata update succeeds
    or raises. *)
Lemma upload_clip_cases (e : env) (file : FileStorage) (st : disk) :
  filename file ≠ "" ->
  allowed (lower (suffix (filename file))) = true ->
  let id := generate_clip_id e in
  let nm := (id ++ lower (suffix (filename file)))%string in
  let r := clip_data id nm (filename file) (now e) (Z.of_nat (length (stream file)))
                     (prefix 16 (SHA256.hexdigest (stream file))) in
  let st1 := {| metadata_file := metadata_file st;
                uploads := <[nm := stream file]> (uploads st) |} in
  upload_clip e (Some file) st
  = match clips_of (document st) with
    | Some l =>
        if can_save st
        then (Val (jsonify (upload_ok id) 200),
              {| metadata_file :=
                   Some {| readable := match metadata_file st with
                                       | Some f => readable f
                                       | None => true
                                       end;
                           writable := true;
                           contents :=
                             Json match document st with
                                  | JDict d => JDict (dict_set "clips" (JList (l ++ [r])) d)
                                  | doc => doc
                                  end |};
                 uploads := <[nm := stream file]> (uploads st) |})
        else (Val (server_error PermissionError), st1)
    | None => (Val (server_error (append_error (document st))), st1)
    end.
Proof.
  intros Hne Hext id nm r st1.
  destruct (clips_of (document st)) as [l|] eqn:Hl.
  - destruct (clips_of_inv _ _ Hl) as (d & Hdoc & Hget).
    destruct (can_save st) eqn:Hsave.
    + rewrite Hdoc. apply (upload_accepted e file st d l); assumption.
    + unfold upload_clip. run.
      destruct (String.eqb_spec (filename file) "") as [E|_]; [contradiction|].
      rewrite Hext. cbn [negb]. unfold in_uploads. fold id. fold nm.
      rewrite (safe_filename_plain e _ Hext : plain nm = true).
      unfold save, st_size, get_file_hash, open_rb.
      repeat (run; cbn [uploads metadata_file]; rewrite ?lookup_insert_eq).
      rewrite load_metadata_document, (document_same_file st) by reflexivity.
      rewrite Hdoc. cbn [getitem]. rewrite Hget. cbn [append setitem].
      unfold save_metadata, can_save in *. cbn [uploads metadata_file].
      destruct (metadata_file st) as [f|]; [|discriminate]. rewrite Hsave. reflexivity.
  - unfold upload_clip. run.
    destruct (String.eqb_spec (filename file) "") as [E|_]; [contradiction|].
    rewrite Hext. cbn [negb]. unfold in_uploads. fold id. fold nm.
    rewrite (safe_filename_plain e _ Hext : plain nm = true).
    unfold save, st_size, get_file_hash, open_rb.
    repeat (run; cbn [uploads metadata_file]; rewrite ?lookup_insert_eq).
    rewrite load_metadata_document, (document_same_file st) by reflexivity.
    unfold clips_of in Hl. unfold append_error.
    destruct (document st) as [| | | | |?|d]; cbn [getitem]; try reflexivity.
    destruct (dict_get "clips" d) as [[| | | | |l|?]|]; cbn [append]; try reflexivity.
    discriminate.
Qed.

(** X8. An upload is answered with status 200 exactly when the request
    has a file part with a non-empty name and an allowed lower-cased
    extension, the loaded document has a [clips] list, and the metadata
    file can be written. *)
Theorem upload_200_iff (e : env) (req : request) (st : disk) :
  (∃ resp st', upload_clip e req st = (Val resp, st') ∧ status_code resp = 200)
  ↔ ∃ file l,
      req = Some file ∧ filename file ≠ ""
      ∧ allowed (lower (suffix (filename file))) = true
      ∧ clips_of (document st) = Some l
      ∧ can_save st = true.
Proof.
  split.
  - intros (resp & st' & Hrun & H200). exact (upload_200_inv e req st st' resp Hrun H200).
  - intros (file & l & -> & Hne & Hext & Hl & Hsave).
    rewrite (upload_clip_cases e file st Hne Hext). cbv zeta. rewrite Hl, Hsave. eauto.
Qed.

(** X9. Whatever the client's file name is (directory parts included) and
    however the upload ends, it either leaves the blobs as they were or
    writes exactly one: the uploaded content, under the generated
    identifier followed by one of the five allowed extensions. *)
Theorem upload_clip_blobs (e : env) (req : request) (st : disk) :
  uploads (snd (upload_clip e req st)) = uploads st
  ∨ ∃ file ext,
      req = Some file ∧ In ext allowed_extensions
      ∧ uploads (snd (upload_clip e req st))
        = <[(generate_clip_id e ++ ext)%string := stream file]> (uploads st).
Proof.
  destruct req as [file|].
  2:{ left. destruct (upload_clip_rejected e None st) as [b ->]; auto. }
  destruct (String.eqb_spec (filename file) "") as [E|E].
  { left. destruct (upload_clip_rejected e (Some file) st) as [b ->]; eauto. }
  destruct (allowed (lower (suffix (filename file)))) eqn:Hext.
  2:{ left. destruct (upload_clip_rejected e (Some file) st) as [b ->]; eauto. }
  right. exists file, (lower (suffix (filename file))). split; [reflexivity|]. split.
  - unfold allowed in Hext. apply existsb_exists in Hext.
    destruct Hext as (x & Hin & Hx). apply String.eqb_eq in Hx. subst x. exact Hin.
  - rewrite (upload_clip_cases e file st E Hext). cbv zeta.
    destruct (clips_of (document st)); [destruct (can_save st)|]; reflexivity.
Qed.

(** X10. When an upload has passed the gates but the loaded document has
    no [clips] list or the metadata file cannot be written, the answer is
    500 and the blob stays on the disk without any metadata entry: the
    metadata file is untouched. *)
Theorem upload_failure_leaves_blob (e : env) (file : FileStorage) (st : disk) :
  filename file ≠ "" ->
  allowed (lower (suffix (filename file))) = true ->
  clips_of (document st) = None ∨ can_save st = false ->
  ∃ err,
    upload_clip e (Some file) st
    = (Val (server_error err),
       {| metadata_file := metadata_file st;
          uploads := <[(generate_clip_id e ++ lower (suffix (filename file)))%string
                       := stream file]> (uploads st) |}).
Proof.
  intros Hne Hext Hbad. rewrite (upload_clip_cases e file st Hne Hext). cbv zeta.
  destruct (clips_of (document st)) as [l|]; [|eauto].
  destruct Hbad as [Hbad|Hbad]; [discriminate|]. rewrite Hbad. eauto.
Qed.

(** X11. When the metadata file is unreadable or not JSON but can be
    written, an upload that passes the gates succeeds and overwrites it
    with a document holding the new entry alone: whatever the file held
    is lost. *)
Theorem upload_replaces_bad_metadata (e : env) (f : file) (file : FileStorage) (st : disk) :
  filename file ≠ "" ->
  allowed (lower (suffix (filename file))) = true ->
  metadata_file st = Some f ->
  writable f = true ->
  readable f = false ∨ contents f = NotJson ->
  let id := generate_clip_id e in
  let nm := (id ++ lower (suffix (filename file)))%string in
  upload_clip e (Some file) st
  = (Val (jsonify (upload_ok id) 200),
     {| metadata_file :=
          Some {| readable := readable f; writable := true;
                  contents :=
                    Json (JDict [("clips",
                                  JList [clip_data id nm (filename file) (now e)
                                           (Z.of_nat (length (stream file)))
                                           (prefix 16 (SHA256.hexdigest (stream file)))])]) |};
        uploads := <[nm := stream file]> (uploads st) |}).
Proof.
  intros Hne Hext Hf Hw Hbad id nm.
  assert (Hdoc : document st = empty_document).
  { unfold document. rewrite load_metadata_cases, Hf. cbn [fst].
    destruct Hbad as [-> | ->]; [reflexivity|]. destruct (readable f); reflexivity. }
  rewrite (upload_accepted e file st [("clips", JList [])] []); try assumption.
  - rewrite Hf. reflexivity.
  - reflexivity.
  - unfold can_save. rewrite Hf. exact Hw.
Qed.

(** ** Upload, then download *)

Lemma lookup_clip_app_none (id : string) (l l' : list value) :
  lookup_clip id l = None -> lookup_clip id (l ++ l') = lookup_clip id l'.
Proof.
  unfold lookup_clip. induction l as [|c l IH]; [reflexivity|].
  cbn [List.find app]. destruct (has_id id c); [discriminate | exact IH].
Qed.

Lemma lookup_clip_app_some (id : string) (l l' : list value) (c : value) :
  lookup_clip id l = Some c -> lookup_clip id (l ++ l') = Some c.
Proof.
  unfold lookup_clip. induction l as [|x l IH]; [discriminate|].
  cbn [List.find app]. destruct (has_id id x); [auto | exact IH].
Qed.

Lemma document_saved (r w : bool) (doc : value) (blobs : gmap string bytes) :
  document {| metadata_file := Some {| readable := r; writable := w; contents := Json doc |};
              uploads := blobs |}
  = if r then doc else empty_document.
Proof. unfold document. rewrite load_metadata_cases. reflexivity. Qed.

Lemma has_id_clip_data (id nm orig time hash : string) (size : Z) :
  has_id id (clip_data id nm orig time size hash) = true.
Proof. unfold has_id, clip_data. cbn. apply String.eqb_refl. Qed.

Lemma stored_name_clip_data (id nm orig time hash : string) (size : Z) :
  stored_name (clip_data id nm orig time size hash) = nm.
Proof. reflexivity. Qed.

(** An accepted upload on a document of records, seen from the next
    request. *)
Lemma upload_accepted_records (e : env) (file : FileStorage) (st : disk) (l : list value) :
  filename file ≠ "" ->
  allowed (lower (suffix (filename file))) = true ->
  records (document st) = Some l ->
  can_save st = true ->
  will_read st = true ->
  let id := generate_clip_id e in
  let nm := (id ++ lower (suffix (filename file)))%string in
  let r := clip_data id nm (filename file) (now e) (Z.of_nat (length (stream file)))
                     (prefix 16 (SHA256.hexdigest (stream file))) in
  let st' := snd (upload_clip e (Some file) st) in
  records (document st') = Some (l ++ [r])
  ∧ uploads st' = <[nm := stream file]> (uploads st)
  ∧ can_save st' = true ∧ will_read st' = true.
Proof.
  intros Hne Hext Hrec Hsave Hread id nm r st'.
  destruct (records_inv _ _ Hrec) as [Hclips Hall].
  destruct (clips_of_inv _ _ Hclips) as (d & Hdoc & Hget).
  pose proof (upload_accepted e file st d l Hne Hext Hdoc Hget Hsave) as Hrun.
  cbv zeta in Hrun. fold id nm r in Hrun. subst st'. rewrite Hrun. cbn [snd].
  unfold will_read in Hread.
  replace (match metadata_file st with Some f => readable f | None => true end) with true
    by (destruct (metadata_file st); auto).
  split; [|split; [reflexivity | split; reflexivity]].
  rewrite document_saved. unfold records. cbn [clips_of]. rewrite dict_get_set.
  rewrite forallb_app. cbn [forallb is_record r clip_data dict_get String.eqb Ascii.eqb Bool.eqb].
  replace (forallb is_record l) with true
    by (symmetry; apply forallb_forall, List.Forall_forall, Hall).
  rewrite (safe_filename_plain e _ Hext : plain nm = true). reflexivity.
Qed.

(** X12. Upload, then download: with the server run from its root path,
    on a document of records none of which carries the generated
    identifier, after an accepted upload the download handler sends, for
    the identifier of the response and a request without [Range] or
    conditional header, exactly the uploaded bytes. *)
Theorem upload_then_download (e : env) (file : FileStorage) (st : disk) (l : list value) :
  root_uploads = None ->
  filename file ≠ "" ->
  allowed (lower (suffix (filename file))) = true ->
  records (document st) = Some l ->
  can_save st = true ->
  will_read st = true ->
  lookup_clip (generate_clip_id e) l = None ->
  let st' := snd (upload_clip e (Some file) st) in
  get_clip (generate_clip_id e) false st'
  = (Val (send_file (generate_clip_id e ++ lower (suffix (filename file)))%string
                    (stream file)), st').
Proof.
  intros Hroot Hne Hext Hrec Hsave Hread Hfresh st'.
  destruct (upload_accepted_records e file st l Hne Hext Hrec Hsave Hread)
    as (Hrec' & Hup & _). fold st' in Hrec', Hup.
  rewrite (get_clip_records _ st' _ Hrec' Hroot).
  rewrite (lookup_clip_app_none _ _ _ Hfresh).
  unfold lookup_clip. cbn [List.find]. rewrite has_id_clip_data.
  rewrite stored_name_clip_data, Hup, lookup_insert_eq. reflexivity.
Qed.

(** X13. When an earlier entry already carries the generated identifier
    and is stored under another blob name (another extension), the new
    upload is accepted but can never be downloaded: the download handler
    answers for that identifier exactly as it did before the upload. *)
Theorem upload_shadowed (e : env) (file : FileStorage) (st : disk)
    (l : list value) (c : value) (conditional : bool) :
  filename file ≠ "" ->
  allowed (lower (suffix (filename file))) = true ->
  records (document st) = Some l ->
  can_save st = true ->
  will_read st = true ->
  lookup_clip (generate_clip_id e) l = Some c ->
  stored_name c ≠ (generate_clip_id e ++ lower (suffix (filename file)))%string ->
  let st' := snd (upload_clip e (Some file) st) in
  fst (upload_clip e (Some file) st) = Val (jsonify (upload_ok (generate_clip_id e)) 200)
  ∧ fst (get_clip (generate_clip_id e) conditional st')
    = fst (get_clip (generate_clip_id e) conditional st).
Proof.
  intros Hne Hext Hrec Hsave Hread Hc Hname st'.
  destruct (upload_accepted_records e file st l Hne Hext Hrec Hsave Hread)
    as (Hrec' & Hup & _). fold st' in Hrec', Hup.
  split.
  - destruct (records_inv _ _ Hrec) as [Hclips _].
    destruct (clips_of_inv _ _ Hclips) as (d & Hdoc & Hget).
    rewrite (upload_accepted e file st d l Hne Hext Hdoc Hget Hsave). reflexivity.
  - rewrite (get_clip_cases _ _ st' _ Hrec'), (get_clip_cases _ _ st _ Hrec).
    rewrite (lookup_clip_app_some _ _ _ _ Hc), Hc. cbn [fst].
    unfold served. rewrite Hup.
    destruct root_uploads; rewrite !lookup_insert_ne by congruence; reflexivity.
Qed.

(** ** More on delete *)

(** X14. On a document of records, deleting an identifier that some entry
    carries is answered with status 200 whenever the metadata file can be
    written. *)
Theorem delete_succeeds (id : string) (st : disk) (l : list value) (c : value) :
  records (document st) = Some l ->
  lookup_clip id l = Some c ->
  can_save st = true ->
  ∃ st', delete_clip id st = (Val (jsonify (delete_ok id) 200), st').
Proof.
  intros Hrec Hc Hsave. destruct (records_inv _ _ Hrec) as [Hclips Hall].
  destruct (clips_of_inv _ _ Hclips) as (d & Hdoc & Hget).
  rewrite (delete_found id st d l c Hdoc Hget Hall Hc Hsave). eauto.
Qed.

(** X15. When the metadata file cannot be written, deleting an identifier
    that an entry carries is answered with 500 after the blob has been
    removed: the entry stays in the document, and the download handler
    then answers 404 "File not found on server" for it. *)
Theorem delete_unwritable (id : string) (st : disk) (l : list value) (c : value) :
  records (document st) = Some l ->
  lookup_clip id l = Some c ->
  can_save st = false ->
  let st' := {| metadata_file := metadata_file st;
                uploads := delete (stored_name c) (uploads st) |} in
  delete_clip id st = (Val (server_error PermissionError), st')
  ∧ ∀ conditional, ∃ body,
      get_clip id conditional st' = (Val (jsonify body 404), st')
      ∧ getitem body "error" = Val (JStr "File not found on server").
Proof.
  intros Hrec Hc Hsave st'. destruct (records_inv _ _ Hrec) as [Hclips Hall].
  destruct (clips_of_inv _ _ Hclips) as (d & Hdoc & Hget).
  destruct (lookup_clip_Some _ _ _ Hc) as [Hin Hid].
  assert (Hkeyed : Forall keyed l)
    by (eapply Forall_impl; [exact Hall | apply is_record_keyed]).
  pose proof Hall as Hall'. rewrite List.Forall_forall in Hall'.
  destruct (is_record_name c (Hall' c Hin)) as [Hnm Hplain].
  unfold can_save in Hsave.
  destruct (metadata_file st) as [f|] eqn:Hf; [|discriminate].
  split.
  - unfold delete_clip. run. rewrite load_metadata_document, Hdoc.
    cbn [getitem]. rewrite Hget. cbn [iter].
    rewrite (next_keyed id l Hkeyed), Hc. cbn [default from_option Datatypes.id]. run.
    rewrite (has_id_truthy _ _ Hid). cbn [negb].
    rewrite Hnm. unfold join_uploads, in_uploads, exists_, unlink, save_metadata. run.
    rewrite Hplain, (others_keyed id l Hkeyed).
    destruct (uploads st !! stored_name c) eqn:Hblob; run; rewrite ?Hblob;
      cbn [metadata_file uploads]; rewrite Hf, Hsave; subst st'; [reflexivity|].
    rewrite delete_id by exact Hblob. destruct st. cbn in *. subst. reflexivity.
  - intros conditional. exists (error_body "File not found on server").
    split; [|reflexivity]. rewrite (get_clip_cases id conditional st' l).
    + rewrite Hc. subst st'. cbn [uploads]. rewrite lookup_delete_eq. reflexivity.
    + rewrite (document_same_file st) by (subst st'; cbn; symmetry; exact Hf). exact Hrec.
Qed.

(** X16. Deleting twice: after a delete answered with status 200, a second
    delete of the same identifier is answered with 404 and changes
    nothing. *)
Theorem delete_twice (id : string) (st st' : disk) (resp : response) :
  delete_clip id st = (Val resp, st') ->
  status_code resp = 200 ->
  delete_clip id st' = (Val (jsonify (error_body "Clip not found") 404), st').
Proof.
  intros Hrun H200.
  destruct (delete_200_inv _ _ _ _ Hrun H200)
    as (d & l & c & nm & Hdoc & Hget & Hc & Hnm & Hplain & Hkeyed & -> & ->).
  apply delete_clip_unknown with (l := without id l).
  - rewrite document_saved. cbn [clips_of]. rewrite dict_get_set. reflexivity.
  - apply without_keyed, Hkeyed.
  - apply lookup_clip_without.
Qed.

Lemma dict_set_set (k : string) (v v' : value) (d : list (string * value)) :
  dict_set k v (dict_set k v' d) = dict_set k v d.
Proof.
  induction d as [|[k0 v0] d IH]; cbn [dict_set].
  - rewrite String.eqb_refl. reflexivity.
  - destruct (String.eqb_spec k0 k) as [E|E]; cbn [dict_set].
    + rewrite String.eqb_refl. reflexivity.
    + destruct (String.eqb_spec k0 k); [contradiction|]. rewrite IH. reflexivity.
Qed.

Lemma dict_set_same (k : string) (v : value) (d : list (string * value)) :
  dict_get k d = Some v -> dict_set k v d = d.
Proof.
  induction d as [|[k0 v0] d IH]; cbn [dict_get dict_set]; [discriminate|].
  destruct (String.eqb_spec k0 k) as [E|E].
  - intros [= ->]. subst. reflexivity.
  - intros H. rewrite IH by exact H. reflexivity.
Qed.

Lemma dict_get_set_ne (k k' : string) (v : value) (d : list (string * value)) :
  k' ≠ k -> dict_get k' (dict_set k v d) = dict_get k' d.
Proof.
  intros Hne. induction d as [|[k0 v0] d IH]; cbn [dict_get dict_set].
  - destruct (String.eqb_spec k k'); [congruence | reflexivity].
  - destruct (String.eqb_spec k0 k) as [E|E]; cbn [dict_get].
    + subst k0. destruct (String.eqb_spec k k'); [congruence | reflexivity].
    + destruct (String.eqb_spec k0 k'); [reflexivity | exact IH].
Qed.

Lemma without_app (id : string) (l l' : list value) :
  without id (l ++ l') = without id l ++ without id l'.
Proof. unfold without. apply List.filter_app. Qed.

(** X17. Upload, then delete: on a disk whose metadata file is the
    server's own and holds a document of records, uploading a clip whose
    identifier and blob name are not in use and then deleting that
    identifier gives back the very same disk, metadata file and blobs. *)
Theorem upload_then_delete (e : env) (file : FileStorage)
    (d : list (string * value)) (l : list value) (blobs : gmap string bytes) :
  let id := generate_clip_id e in
  let nm := (id ++ lower (suffix (filename file)))%string in
  let st := {| metadata_file :=
                 Some {| readable := true; writable := true; contents := Json (JDict d) |};
               uploads := blobs |} in
  filename file ≠ "" ->
  allowed (lower (suffix (filename file))) = true ->
  dict_get "clips" d = Some (JList l) ->
  Forall (fun c => is_record c = true) l ->
  lookup_clip id l = None ->
  blobs !! nm = None ->
  serve [Upload e (Some file); Delete id] st = st.
Proof.
  intros id nm st Hne Hext Hget Hall Hfresh Hblob.
  assert (Hdoc : document st = JDict d) by apply document_saved.
  cbn [serve handle].
  rewrite (upload_accepted e file st d l Hne Hext Hdoc Hget eq_refl). cbn [snd].
  fold id nm.
  set (r := clip_data id nm (filename file) (now e) (Z.of_nat (length (stream file)))
                      (prefix 16 (SHA256.hexdigest (stream file)))).
  cbn [st metadata_file readable uploads].
  erewrite (delete_found id _ (dict_set "clips" (JList (l ++ [r])) d) (l ++ [r]) r).
  - cbn [snd]. rewrite without_app, (without_absent _ _ Hfresh).
    unfold without at 1. cbn [List.filter]. unfold r at 1. rewrite has_id_clip_data.
    cbn [negb]. rewrite app_nil_r, dict_set_set, (dict_set_same _ _ _ Hget).
    cbn [uploads]. unfold r.
    rewrite stored_name_clip_data, delete_insert_eq, delete_id by exact Hblob.
    reflexivity.
  - apply document_saved.
  - apply dict_get_set.
  - apply Forall_app. split; [exact Hall|]. constructor; [|constructor].
    unfold r, is_record, clip_data. cbn. apply safe_filename_plain, Hext.
  - rewrite (lookup_clip_app_none _ _ _ Hfresh). unfold lookup_clip. cbn [List.find].
    unfold r. rewrite has_id_clip_data. reflexivity.
  - reflexivity.
Qed.

(** X18. The handlers rewrite the [clips] member only: after any request
    answered with status 200, every other member of the loaded document
    is what it was before. *)
Theorem other_members_kept (o : op) (st st' : disk) (resp : response) (k : string) :
  handle o st = (Val resp, st') ->
  status_code resp = 200 ->
  k ≠ "clips" ->
  getitem (document st') k = getitem (document st) k.
Proof.
  intros Hrun H200 Hk. destruct o as [e req| |id conditional|id]; cbn [handle] in Hrun.
  - destruct (upload_200_inv _ _ _ _ _ Hrun H200) as (file & l & -> & Hne & Hext & Hl & Hsave).
    destruct (clips_of_inv _ _ Hl) as (d & Hdoc & Hget).
    rewrite (upload_accepted e file st d l Hne Hext Hdoc Hget Hsave) in Hrun.
    injection Hrun as _ <-. rewrite document_saved.
    unfold document in Hdoc |- *. rewrite load_metadata_cases in Hdoc |- *. cbn [fst] in *.
    destruct (metadata_file st) as [f|].
    + destruct (readable f); [|reflexivity].
      destruct (contents f); rewrite Hdoc; cbn [getitem];
        rewrite dict_get_set_ne by exact Hk; reflexivity.
    + rewrite Hdoc. cbn [getitem]. rewrite dict_get_set_ne by exact Hk. reflexivity.
  - pose proof (list_clips_state st) as Hs. rewrite Hrun in Hs. cbn in Hs. subst st'.
    reflexivity.
  - pose proof (get_clip_state id conditional st) as Hs. rewrite Hrun in Hs. cbn in Hs. subst st'.
    reflexivity.
  - destruct (delete_200_inv _ _ _ _ Hrun H200)
      as (d & l & c & nm & Hdoc & Hget & Hc & Hnm & Hplain & Hkeyed & -> & ->).
    rewrite document_saved, Hdoc. cbn [getitem].
    rewrite dict_get_set_ne by exact Hk. reflexivity.
Qed.

(** ** What holds of every reachable disk *)

Lemma string_app_inj_l (a b x y : string) :
  String.length a = String.length b -> (a ++ x)%string = (b ++ y)%string -> a = b.
Proof.
  revert b. induction a as [|c a IH]; intros [|c' b]; cbn; try discriminate; [reflexivity|].
  intros [= Hlen] [= -> Happ]. f_equal. apply IH; assumption.
Qed.

Lemma lookup_clip_to_value (id : string) (rs : list ClipRecord) (c : value) :
  lookup_clip id (map to_value rs) = Some c ->
  ∃ r, In r rs ∧ c = to_value r ∧ clip_id r = id.
Proof.
  intros H. destruct (lookup_clip_Some _ _ _ H) as [Hin Hid].
  apply List.in_map_iff in Hin. destruct Hin as (r & <- & Hr).
  exists r. split; [exact Hr|]. split; [reflexivity|].
  rewrite has_id_to_value in Hid. apply String.eqb_eq, Hid.
Qed.

Lemma well_named_distinct (r r0 : ClipRecord) :
  well_named r -> well_named r0 -> clip_id r ≠ clip_id r0 ->
  stored_filename r ≠ stored_filename r0.
Proof.
  intros [Hl (x & _ & Hx)] [Hl0 (x0 & _ & Hx0)] Hne Heq. apply Hne.
  rewrite Hx, Hx0 in Heq. apply (string_app_inj_l _ _ x x0); congruence.
Qed.

(** Each request keeps the disk sound for the records the specification
    implies. *)
Lemma handle_sound (o : op) (st : disk) (rs : list ClipRecord) :
  sound st rs -> sound (snd (handle o st)) (spec_step rs o).
Proof.
  intros (Hc & Hnamed & Hblobs).
  split; [apply handle_consistent, Hc|].
  pose proof (consistent_document st rs Hc) as Hdoc.
  pose proof (consistent_records st rs Hc) as Hrec.
  destruct Hc as [Hf Hplain].
  destruct o as [e req| |id conditional|id]; cbn [handle spec_step].
  - destruct req as [file|]; cbn [spec_upload].
    2:{ destruct (upload_clip_rejected e None st) as [b ->]; [auto|]. split; assumption. }
    destruct (String.eqb_spec (filename file) "") as [E|E]; cbn [orb].
    { destruct (upload_clip_rejected e (Some file) st) as [b ->]; [eauto|]. split; assumption. }
    destruct (allowed (lower (suffix (filename file)))) eqn:Hext; cbn [negb].
    2:{ destruct (upload_clip_rejected e (Some file) st) as [b ->]; [eauto|]. split; assumption. }
    rewrite (upload_accepted e file st [("clips", JList (map to_value rs))] (map to_value rs));
      try assumption; try reflexivity.
    2:{ unfold can_save. rewrite Hf. reflexivity. }
    cbn [snd uploads]. split.
    + apply Forall_app. split; [exact Hnamed|]. constructor; [|constructor].
      split; cbn [clip_id stored_filename]; [|eauto].
      rewrite string_length_list. apply generate_clip_id_hex.
    + apply Forall_app. split.
      * eapply Forall_impl; [exact Hblobs|]. intros r [x Hx]. cbn beta.
        rewrite lookup_insert. case_decide; eauto.
      * constructor; [|constructor]. cbn [stored_filename].
        rewrite lookup_insert_eq. eauto.
  - rewrite list_clips_state. split; assumption.
  - rewrite get_clip_state. split; assumption.
  - destruct (lookup_clip id (map to_value rs)) as [c|] eqn:Hfound.
    + rewrite (delete_found id st [("clips", JList (map to_value rs))] (map to_value rs) c);
        try assumption; try reflexivity.
      2:{ unfold can_save. rewrite Hf. reflexivity. }
      cbn [snd uploads].
      destruct (lookup_clip_to_value _ _ _ Hfound) as (r0 & Hr0 & -> & Hid0).
      change (stored_name (to_value r0)) with (stored_filename r0).
      rewrite Forall_forall in Hnamed, Hblobs.
      unfold spec_delete. split; apply Forall_forall; intros r Hr;
        apply list_elem_of_filter in Hr; destruct Hr as [Hne Hr]; [auto|].
      rewrite lookup_delete_ne; [auto|].
      apply not_eq_sym, well_named_distinct; auto.
      * apply Hnamed, list_elem_of_In, Hr0.
      * congruence.
    + rewrite (delete_clip_unknown id st (map to_value rs)); try assumption.
      * cbn [snd]. assert (Hsame : spec_delete id rs = rs).
        { apply to_value_inj. rewrite <- without_to_value. apply without_absent, Hfound. }
        rewrite Hsame. split; assumption.
      * rewrite Hdoc. reflexivity.
      * eapply Forall_impl; [exact Hrec | apply is_record_keyed].
Qed.

Lemma reachable_sound (st : disk) : reachable st -> ∃ rs, sound st rs.
Proof.
  induction 1 as [blobs | o st _ [rs IH]].
  - exists []. split; [apply startup_consistent|]. split; constructor.
  - exists (spec_step rs o). apply handle_sound, IH.
Qed.

Lemma sound_records (st : disk) (rs : list ClipRecord) :
  sound st rs -> records (document st) = Some (map to_value rs) ∧ can_save st = true.
Proof.
  intros (Hc & _ & _). split.
  - unfold records. rewrite (consistent_document _ _ Hc).
    cbn [spec_document clips_of dict_get String.eqb Ascii.eqb Bool.eqb].
    replace (forallb is_record (map to_value rs)) with true; [reflexivity|].
    symmetry. apply forallb_forall. apply List.Forall_forall.
    apply (consistent_records _ _ Hc).
  - destruct Hc as [Hf _]. unfold can_save. rewrite Hf. reflexivity.
Qed.

(** X19. On every reachable disk the metadata file holds a list of
    entries each of which has an identifier of eight characters and a
    blob name made of that identifier and an allowed extension. *)
Theorem reachable_entries_named (st : disk) :
  reachable st ->
  ∃ l, clips_of (document st) = Some l
       ∧ Forall (fun c => ∃ id ext,
                   getitem c "clip_id" = Val (JStr id)
                   ∧ String.length id = 8%nat
                   ∧ allowed ext = true
                   ∧ getitem c "filename" = Val (JStr (id ++ ext)%string)) l.
Proof.
  intros H. destruct (reachable_sound st H) as (rs & Hc & Hnamed & _).
  exists (map to_value rs). split.
  - rewrite (consistent_document _ _ Hc). reflexivity.
  - apply Forall_map. eapply Forall_impl; [exact Hnamed|].
    intros r [Hlen (ext & Hext & Hnm)]. exists (clip_id r), ext.
    split; [reflexivity|]. split; [exact Hlen|]. split; [exact Hext|].
    cbn. rewrite Hnm. reflexivity.
Qed.

(** X20. On every reachable disk no entry has lost its blob: the
    entries of the metadata file are records whose named blob is in the
    working directory's [uploads], and the download handler, whatever
    the request's headers and whichever directory
    [send_from_directory] serves from, never answers "File not found on
    server"; run from the root path and without [Range] or conditional
    header it answers 404 "Clip not found" or sends a blob that is on
    the disk. *)
Theorem reachable_no_missing_blob (st : disk) (id : string) :
  reachable st ->
  (∃ rs, records (document st) = Some (map to_value rs)
         ∧ Forall (fun r => is_Some (uploads st !! stored_filename r)) rs)
  ∧ (∀ conditional,
       fst (get_clip id conditional st)
       ≠ Val (jsonify (error_body "File not found on server") 404))
  ∧ (root_uploads = None ->
     get_clip id false st = (Val (jsonify (error_body "Clip not found") 404), st)
     ∨ ∃ nm data, get_clip id false st = (Val (send_file nm data), st)
                  ∧ uploads st !! nm = Some data).
Proof.
  intros H. destruct (reachable_sound st H) as (rs & Hs).
  destruct (sound_records st rs Hs) as [Hrec _]. destruct Hs as (_ & _ & Hblobs).
  split; [exists rs; split; [exact Hrec | exact Hblobs]|].
  rewrite Forall_forall in Hblobs. split.
  - intros conditional. rewrite (get_clip_cases id conditional st _ Hrec). cbn [fst].
    destruct (lookup_clip id (map to_value rs)) as [c|] eqn:Hc; [|discriminate].
    destruct (lookup_clip_to_value _ _ _ Hc) as (r & Hr & -> & _).
    change (stored_name (to_value r)) with (stored_filename r).
    destruct (Hblobs r) as [data Hdata]; [apply list_elem_of_In, Hr|].
    rewrite Hdata. destruct (served st !! stored_filename r); [destruct conditional|];
      discriminate.
  - intros Hroot. rewrite (get_clip_records id st _ Hrec Hroot).
    destruct (lookup_clip id (map to_value rs)) as [c|] eqn:Hc; [|left; reflexivity].
    destruct (lookup_clip_to_value _ _ _ Hc) as (r & Hr & -> & _).
    change (stored_name (to_value r)) with (stored_filename r).
    destruct (Hblobs r) as [data Hdata]; [apply list_elem_of_In, Hr|].
    right. exists (stored_filename r), data. rewrite Hdata. auto.
Qed.

(** X21. With the server run from its root path, on every reachable
    disk every request that is not a download with a [Range] or
    conditional header is answered, and with status 200, 400 or 404:
    the handlers never answer 500 there. *)
Theorem reachable_no_server_error (st : disk) (o : op) :
  reachable st ->
  root_uploads = None ->
  unconditional o = true ->
  ∃ resp st',
    handle o st = (Val resp, st')
    ∧ (status_code resp = 200 ∨ status_code resp = 400 ∨ status_code resp = 404).
Proof.
  intros H Hroot Hun. destruct (reachable_sound st H) as (rs & Hs).
  destruct (sound_records st rs Hs) as [Hrec Hsave].
  destruct (records_inv _ _ Hrec) as [Hclips Hall].
  destruct o as [e req| |id conditional|id]; cbn [handle].
  - destruct req as [file|].
    2:{ destruct (upload_clip_rejected e None st) as [b ->]; [auto|].
        eexists _, _. split; [reflexivity|]. cbn. auto. }
    destruct (String.eqb_spec (filename file) "") as [E|E].
    { destruct (upload_clip_rejected e (Some file) st) as [b ->]; [eauto|].
      eexists _, _. split; [reflexivity|]. cbn. auto. }
    destruct (allowed (lower (suffix (filename file)))) eqn:Hext.
    2:{ destruct (upload_clip_rejected e (Some file) st) as [b ->]; [eauto|].
        eexists _, _. split; [reflexivity|]. cbn. auto. }
    rewrite (upload_clip_cases e file st E Hext). cbv zeta. rewrite Hclips, Hsave.
    eexists _, _. split; [reflexivity|]. cbn. auto.
  - unfold list_clips. run. rewrite load_metadata_document.
    eexists _, _. split; [reflexivity|]. cbn. auto.
  - destruct conditional; [discriminate Hun|].
    rewrite (get_clip_records id st _ Hrec Hroot).
    eexists _, _. split; [reflexivity|].
    destruct (lookup_clip id (map to_value rs)) as [c|];
      [destruct (uploads st !! stored_name c)|]; cbn; auto.
  - destruct (lookup_clip id (map to_value rs)) as [c|] eqn:Hc.
    + destruct (clips_of_inv _ _ Hclips) as (d & Hdoc & Hget).
      rewrite (delete_found id st d _ c Hdoc Hget Hall Hc Hsave).
      eexists _, _. split; [reflexivity|]. cbn. auto.
    + rewrite (delete_clip_unknown id st _ Hclips); [| |exact Hc].
      * eexists _, _. split; [reflexivity|]. cbn. auto.
      * eapply Forall_impl; [exact Hall | apply is_record_keyed].
Qed.

(** ** Documents the server did not write *)

(** X22. When the loaded document has no [clips] member, or is not an
    object at all, the download and the delete handler both answer 500
    and leave the disk as it is. *)
Theorem no_clips_member (id : string) (conditional : bool) (st : disk) (err : exn) :
  getitem (document st) "clips" = Exc err ->
  get_clip id conditional st = (Val (server_error err), st)
  ∧ delete_clip id st = (Val (server_error err), st).
Proof.
  intros H. unfold get_clip, delete_clip. run.
  rewrite load_metadata_document, H. split; reflexivity.
Qed.

Lemma next_found (id : string) (l1 l2 : list value) (c : value) :
  Forall (fun x => keyed x ∧ has_id id x = false) l1 ->
  has_id id c = true ->
  next id (l1 ++ c :: l2) = Val c.
Proof.
  intros H1 Hc. induction H1 as [|x l1 [[v Hv] Hx] _ IH]; cbn [app next].
  - unfold has_id in Hc. destruct (getitem c "clip_id") as [v| |]; try discriminate.
    rewrite Hc. reflexivity.
  - unfold has_id in Hx. rewrite Hv in Hx |- *. rewrite Hx. exact IH.
Qed.

Lemma others_raises (id : string) (l : list value) :
  ¬ Forall keyed l -> ∃ err, others id l = Exc err.
Proof.
  intros Hn. destruct (others id l) as [kept|err|] eqn:H.
  - destruct Hn. apply (others_val _ _ _ H).
  - eauto.
  - exfalso. clear Hn. revert H. induction l as [|x l IH]; cbn [others]; [discriminate|].
    unfold getitem. destruct x as [| | | | | |d]; try discriminate.
    destruct (dict_get "clip_id" d); [|discriminate].
    destruct (others id l); try discriminate. intros _. apply IH. reflexivity.
Qed.

(** X23. The download handler stops at the first entry with the
    identifier, the delete handler filters the whole list: when an entry
    after the first match cannot be subscripted with ["clip_id"], the
    download (with the server run from its root path, for a request
    without [Range] or conditional header) still sends the clip, but
    the delete answers 500 after it has removed the blob, and the
    metadata file keeps the entry. *)
Theorem delete_fails_after_unlink (id nm : string) (st : disk)
    (d : list (string * value)) (l1 l2 : list value) (c : value) (data : bytes) :
  document st = JDict d ->
  dict_get "clips" d = Some (JList (l1 ++ c :: l2)) ->
  Forall (fun x => keyed x ∧ has_id id x = false) l1 ->
  has_id id c = true ->
  getitem c "filename" = Val (JStr nm) ->
  plain nm = true ->
  uploads st !! nm = Some data ->
  ¬ Forall keyed l2 ->
  root_uploads = None ->
  get_clip id false st = (Val (send_file nm data), st)
  ∧ ∃ err,
      delete_clip id st
      = (Val (server_error err),
         {| metadata_file := metadata_file st; uploads := delete nm (uploads st) |}).
Proof.
  intros Hdoc Hget H1 Hc Hnm Hplain Hblob Hn2 Hroot.
  pose proof (next_found id l1 l2 c H1 Hc) as Hnext.
  destruct (others_raises id (l1 ++ c :: l2)) as [err Herr].
  { intros H. apply Forall_app in H. destruct H as [_ H].
    apply Forall_cons in H. destruct H as [_ H]. exact (Hn2 H). }
  split; [|exists err].
  - unfold get_clip. run. rewrite load_metadata_document, Hdoc.
    cbn [getitem]. rewrite Hget. cbn [iter]. rewrite Hnext. run.
    rewrite (has_id_truthy _ _ Hc). cbn [negb]. rewrite Hnm.
    unfold send_from_directory, join_uploads, in_uploads, exists_. run.
    rewrite Hplain, Hblob. cbn [negb]. run. unfold served. rewrite Hroot, Hblob.
    reflexivity.
  - unfold delete_clip. run. rewrite load_metadata_document, Hdoc.
    cbn [getitem]. rewrite Hget. cbn [iter]. rewrite Hnext. run.
    rewrite (has_id_truthy _ _ Hc). cbn [negb]. rewrite Hnm.
    unfold join_uploads, in_uploads, exists_, unlink. run.
    rewrite Hplain, Hblob. run. rewrite Hblob, Herr. reflexivity.
Qed.

(** ** Entries and the blobs they describe *)

Lemma latest_app_one (nm : string) (rs : list ClipRecord) (r : ClipRecord) :
  latest nm (rs ++ [r]) = if String.eqb (stored_filename r) nm then Some r else latest nm rs.
Proof.
  induction rs as [|x rs IH]; cbn [app latest].
  - destruct (String.eqb (stored_filename r) nm); reflexivity.
  - rewrite IH. destruct (String.eqb (stored_filename r) nm); reflexivity.
Qed.

Lemma latest_Some (nm : string) (rs : list ClipRecord) (r : ClipRecord) :
  latest nm rs = Some r -> In r rs ∧ stored_filename r = nm.
Proof.
  induction rs as [|x rs IH]; cbn [latest]; [discriminate|].
  destruct (latest nm rs) as [r'|].
  - intros [= <-]. destruct (IH eq_refl). split; [right|]; assumption.
  - destruct (String.eqb_spec (stored_filename x) nm); [|discriminate].
    intros [= <-]. split; [left; reflexivity | assumption].
Qed.

Lemma latest_is_Some (nm : string) (rs : list ClipRecord) (r : ClipRecord) :
  In r rs -> stored_filename r = nm -> is_Some (latest nm rs).
Proof.
  intros Hin Hnm. induction rs as [|x rs IH]; [destruct Hin|]. cbn [latest].
  destruct (latest nm rs) as [r'|]; [eauto|].
  destruct Hin as [-> | Hin]; [|destruct (IH Hin) as [? [=]]].
  rewrite Hnm, String.eqb_refl. eauto.
Qed.

Lemma well_named_same_name (r r' : ClipRecord) :
  well_named r -> well_named r' -> stored_filename r = stored_filename r' ->
  clip_id r = clip_id r'.
Proof.
  intros Hr Hr' Heq. destruct (String.eqb_spec (clip_id r) (clip_id r')) as [E|E]; [exact E|].
  destruct (well_named_distinct r r' Hr Hr' E Heq).
Qed.

Lemma latest_spec_delete (id nm : string) (rs : list ClipRecord) (r : ClipRecord) :
  Forall well_named rs ->
  latest nm (spec_delete id rs) = Some r -> latest nm rs = Some r.
Proof.
  unfold spec_delete. induction 1 as [|x rs Hx Hall IH]; [discriminate|].
  rewrite filter_cons. destruct (decide (clip_id x ≠ id)) as [Hkeep|Hdrop]; cbn [latest].
  - destruct (latest nm (filter _ rs)) as [r'|] eqn:Hl.
    + intros [= <-]. rewrite (IH eq_refl). reflexivity.
    + destruct (String.eqb_spec (stored_filename x) nm) as [Hnm|]; [|discriminate].
      intros [= <-]. destruct (latest nm rs) as [r''|] eqn:Hl'; [|reflexivity].
      exfalso. destruct (latest_Some _ _ _ Hl') as [Hin Hnm''].
      rewrite Forall_forall in Hall.
      assert (Hid : clip_id r'' = clip_id x).
      { apply well_named_same_name; [apply Hall, list_elem_of_In, Hin | exact Hx | congruence]. }
      destruct (latest_is_Some nm (filter (fun r => clip_id r ≠ id) rs) r'') as [? Hs];
        [|exact Hnm''|congruence].
      apply list_elem_of_In, list_elem_of_filter. split; [congruence|].
      apply list_elem_of_In, Hin.
  - intros H. rewrite (IH H). reflexivity.
Qed.

(** Each request keeps the blobs faithful to the records. *)
Lemma handle_faithful (o : op) (st : disk) (rs : list ClipRecord) :
  sound st rs -> faithful st rs -> faithful (snd (handle o st)) (spec_step rs o).
Proof.
  intros (Hc & Hnamed & Hblobs) Hfaith.
  pose proof (consistent_document st rs Hc) as Hdoc.
  pose proof (consistent_records st rs Hc) as Hrec.
  destruct Hc as [Hf Hplain].
  destruct o as [e req| |id conditional|id]; cbn [handle spec_step].
  - destruct req as [file|]; cbn [spec_upload].
    2:{ destruct (upload_clip_rejected e None st) as [b ->]; [auto|]. exact Hfaith. }
    destruct (String.eqb_spec (filename file) "") as [E|E]; cbn [orb].
    { destruct (upload_clip_rejected e (Some file) st) as [b ->]; [eauto|]. exact Hfaith. }
    destruct (allowed (lower (suffix (filename file)))) eqn:Hext; cbn [negb].
    2:{ destruct (upload_clip_rejected e (Some file) st) as [b ->]; [eauto|]. exact Hfaith. }
    rewrite (upload_accepted e file st [("clips", JList (map to_value rs))] (map to_value rs));
      try assumption; try reflexivity.
    2:{ unfold can_save. rewrite Hf. reflexivity. }
    cbn [snd]. intros nm r. rewrite latest_app_one. cbn [stored_filename uploads].
    destruct (String.eqb_spec (generate_clip_id e ++ lower (suffix (filename file))) nm)
      as [<-|Hnm].
    + intros [= <-]. exists (stream file). rewrite lookup_insert_eq.
      split; [reflexivity|]. split; reflexivity.
    + intros Hl. rewrite lookup_insert_ne by exact Hnm. apply Hfaith, Hl.
  - rewrite list_clips_state. exact Hfaith.
  - rewrite get_clip_state. exact Hfaith.
  - destruct (lookup_clip id (map to_value rs)) as [c|] eqn:Hfound.
    + rewrite (delete_found id st [("clips", JList (map to_value rs))] (map to_value rs) c);
        try assumption; try reflexivity.
      2:{ unfold can_save. rewrite Hf. reflexivity. }
      cbn [snd]. intros nm r Hl. cbn [uploads].
      destruct (lookup_clip_to_value _ _ _ Hfound) as (r0 & Hr0 & -> & Hid0).
      change (stored_name (to_value r0)) with (stored_filename r0).
      destruct (latest_Some _ _ _ Hl) as [Hin Hnm].
      apply list_elem_of_In, list_elem_of_filter in Hin. destruct Hin as [Hne Hin].
      rewrite Forall_forall in Hnamed.
      rewrite lookup_delete_ne.
      * apply Hfaith, (latest_spec_delete id); [apply Forall_forall, Hnamed | exact Hl].
      * rewrite <- Hnm. apply not_eq_sym, well_named_distinct; auto.
        -- apply Hnamed, list_elem_of_In, Hr0.
        -- congruence.
    + rewrite (delete_clip_unknown id st (map to_value rs)); try assumption.
      * cbn [snd]. assert (Hsame : spec_delete id rs = rs).
        { apply to_value_inj. rewrite <- without_to_value. apply without_absent, Hfound. }
        rewrite Hsame. exact Hfaith.
      * rewrite Hdoc. reflexivity.
      * eapply Forall_impl; [exact Hrec | apply is_record_keyed].
Qed.

Lemma reachable_faithful (st : disk) : reachable st -> ∃ rs, sound st rs ∧ faithful st rs.
Proof.
  induction 1 as [blobs | o st _ (rs & Hs & Hfaith)].
  - exists []. split; [split; [apply startup_consistent | split; constructor]|].
    intros nm r [=].
  - exists (spec_step rs o). split; [apply handle_sound, Hs | apply handle_faithful; assumption].
Qed.

Lemma NoDup_map_eq {A B} (f : A -> B) (l : list A) (a b : A) :
  NoDup (map f l) -> In a l -> In b l -> f a = f b -> a = b.
Proof.
  induction l as [|x l IH]; cbn [map]; [intros _ []|].
  intros Hnd. apply NoDup_cons in Hnd. destruct Hnd as [Hx Hnd].
  intros [<-|Ha] [<-|Hb] Heq; auto.
  - destruct Hx. rewrite Heq. apply list_elem_of_In, List.in_map, Hb.
  - destruct Hx. rewrite <- Heq. apply list_elem_of_In, List.in_map, Ha.
Qed.

(** X24. On every reachable disk whose entries have pairwise different
    identifiers, every entry describes its blob: the blob it names is
    there, [file_size] is its length and [file_hash] the first sixteen
    hexadecimal digits of its SHA-256 digest. *)
Theorem reachable_entries_describe_blobs (st : disk) (l : list value) :
  reachable st ->
  clips_of (document st) = Some l ->
  NoDup (ids l) ->
  Forall (fun c => ∃ nm data,
            getitem c "filename" = Val (JStr nm)
            ∧ uploads st !! nm = Some data
            ∧ getitem c "file_size" = Val (JInt (Z.of_nat (length data)))
            ∧ getitem c "file_hash" = Val (JStr (prefix 16 (SHA256.hexdigest data)))) l.
Proof.
  intros Hreach Hl Hnd. destruct (reachable_faithful st Hreach) as (rs & Hs & Hfaith).
  destruct Hs as (Hc & Hnamed & _).
  rewrite (consistent_document _ _ Hc) in Hl. injection Hl as <-.
  assert (Hids : NoDup (map clip_id rs)).
  { unfold ids in Hnd. rewrite List.map_map in Hnd.
    change (NoDup (map (fun r => Val (JStr (clip_id r))) rs)) in Hnd.
    rewrite <- (List.map_map clip_id (fun s => Val (JStr s))) in Hnd.
    apply (NoDup_fmap_1 (fun s => Val (JStr s))), Hnd. }
  apply Forall_map, Forall_forall. intros r Hr. apply list_elem_of_In in Hr.
  rewrite Forall_forall in Hnamed.
  destruct (latest_is_Some (stored_filename r) rs r Hr eq_refl) as [r' Hl'].
  destruct (latest_Some _ _ _ Hl') as [Hr' Hnm'].
  assert (r' = r) as ->.
  { apply (NoDup_map_eq clip_id rs); auto.
    apply well_named_same_name; auto; apply Hnamed, list_elem_of_In; assumption. }
  destruct (Hfaith _ _ Hl') as (data & Hdata & Hsize & Hhash).
  exists (stored_filename r), data. cbn. rewrite Hsize, Hhash. auto.
Qed.

(** ** A server run from another directory *)

(** X25. When the server is run from a directory other than its root
    path, [send_from_directory] looks in the root path's [uploads] while
    the handlers store and test in the working directory's: for an
    entry whose blob is in the latter and not in the former, the
    download handler answers 500, whatever the request's headers, and
    leaves the disk as it is. *)
Theorem get_clip_other_root (id : string) (conditional : bool) (st : disk)
    (l : list value) (c : value) (files : gmap string bytes) :
  records (document st) = Some l ->
  lookup_clip id l = Some c ->
  is_Some (uploads st !! stored_name c) ->
  root_uploads = Some files ->
  files !! stored_name c = None ->
  get_clip id conditional st = (Val (server_error NotFound), st)
  ∧ status_code (server_error NotFound) = 500.
Proof.
  intros Hrec Hc [data Hdata] Hroot Hnone. split; [|reflexivity].
  rewrite (get_clip_cases id conditional st l Hrec), Hc, Hdata.
  unfold served. rewrite Hroot, Hnone. reflexivity.
Qed.

End Server.

(* ===================================================================== *)
(** * Checks of the library models *)
(* ===================================================================== *)

Example sha256_constants :
  nth 0 SHA256.K 0 = 0x428a2f98 ∧ nth 63 SHA256.K 0 = 0xc67178f2
  ∧ nth 0 SHA256.H0 0 = 0x6a09e667 ∧ nth 7 SHA256.H0 0 = 0x5be0cd19
  ∧ length SHA256.K = 64%nat ∧ length SHA256.H0 = 8%nat.
Proof. repeat split. Qed.

Example sha256_abc :
  SHA256.hexdigest (list_byte_of_string "abc")
  = "ba7816bf8f01cfea414140de5dae2223b00361a396177a9cb410ff61f20015ad".
Proof. vm_compute. reflexivity. Qed.

Example sha256_empty :
  SHA256.hexdigest []
  = "e3b0c44298fc1c149afbf4c8996fb92427ae41e4649b934ca495991b7852b855".
Proof. vm_compute. reflexivity. Qed.

Example sha256_two_blocks :
  SHA256.hexdigest (repeat "a"%byte 100)
  = "2816597888e4a0d3a36b82b83316ab32680eb8f00f8cd3b904d681246d285a0e".
Proof. vm_compute. reflexivity. Qed.

Example uuid_str_ex :
  uuid_str (uuid4 0x0123456789abcdef0123456789abcdef)
  = "01234567-89ab-4def-8123-456789abcdef".
Proof. vm_compute. reflexivity. Qed.

Example suffix_examples :
  suffix "video" = "" ∧ suffix ".mp4" = "" ∧ suffix "clip." = ""
  ∧ suffix ".." = "" ∧ suffix "clips.mp4/raw" = ""
  ∧ suffix "Holiday.MP4" = ".MP4" ∧ suffix "a/b/take.1.webm" = ".webm"
  ∧ suffix "clip.mp4/" = ".mp4" ∧ suffix "..mp4" = ".mp4".
Proof. repeat split. Qed.

Example lower_examples :
  lower ".MP4" = ".mp4" ∧ lower ".WebM" = ".webm" ∧ lower ".m4v" = ".m4v".
Proof. repeat split. Qed.

Example allowed_examples :
  allowed (lower (suffix "Holiday.MP4")) = true
  ∧ allowed (lower (suffix "evil.exe")) = false
  ∧ allowed (lower (suffix "video")) = false
  ∧ allowed (lower (suffix ".mp4")) = false.
Proof. repeat split. Qed.

Example generate_clip_id_example : generate_clip_id env0 = "01234567".
Proof. vm_compute. reflexivity. Qed.

Example read_blocks_example :
  fed (read_blocks (repeat "a"%byte 4500) sha256) = repeat "a"%byte 4500.
Proof. vm_compute. reflexivity. Qed.

(* ===================================================================== *)
(** * Concrete runs *)
(* ===================================================================== *)

Lemma upload_then_list_witness :
  ∃ resp st',
    upload_clip base_url set_repr env0 (Some abc_mp4) fresh_disk = (Val resp, st')
    ∧ status_code resp = 200
    ∧ ∃ file l r f' doc' id,
        Some abc_mp4 = Some file
        ∧ id = generate_clip_id env0
        ∧ resp = jsonify (upload_ok base_url id) 200
        ∧ getitem (upload_ok base_url id) "success" = Val (JBool true)
        ∧ getitem (upload_ok base_url id) "clip_id" = Val (JStr id)
        ∧ clips_of (document fresh_disk) = Some l
        ∧ metadata_file st' = Some f' ∧ contents f' = Json doc'
        ∧ clips_of doc' = Some (l ++ [r])
        ∧ getitem r "clip_id" = Val (JStr id)
        ∧ getitem r "file_size" = Val (JInt (Z.of_nat (length (stream file))))
        ∧ getitem r "file_hash" = Val (JStr (prefix 16 (SHA256.hexdigest (stream file))))
        ∧ uploads st' !! stored_name r = Some (stream file)
        ∧ (readable f' = true -> list_clips st' = (Val (jsonify doc' 200), st')).
Proof.
  assert (H : ∃ resp st',
             upload_clip base_url set_repr env0 (Some abc_mp4) fresh_disk = (Val resp, st')
             ∧ status_code resp = 200).
  { eexists _, _. split; [vm_compute; reflexivity | reflexivity]. }
  destruct H as (resp & st' & Hrun & H200).
  exists resp, st'. split; [exact Hrun|]. split; [exact H200|].
  exact (upload_then_list base_url set_repr env0 (Some abc_mp4) fresh_disk st' resp Hrun H200).
Defined.

Lemma delete_removes_witness :
  ∃ l c,
    records (document (blob_gone base_url set_repr at_root)) = Some l
    ∧ lookup_clip "01234567" l = Some c
    ∧ can_save (blob_gone base_url set_repr at_root) = true
    ∧ uploads (blob_gone base_url set_repr at_root) !! stored_name c = None
    ∧ ∃ st',
        delete_clip "01234567" (blob_gone base_url set_repr at_root)
        = (Val (jsonify (delete_ok "01234567") 200), st')
        ∧ ∃ l c f' doc',
            clips_of (document (blob_gone base_url set_repr at_root)) = Some l
            ∧ lookup_clip "01234567" l = Some c
            ∧ jsonify (delete_ok "01234567") 200 = jsonify (delete_ok "01234567") 200
            ∧ metadata_file st' = Some f' ∧ contents f' = Json doc'
            ∧ clips_of doc' = Some (without "01234567" l)
            ∧ uploads st'
              = delete (stored_name c) (uploads (blob_gone base_url set_repr at_root))
            ∧ uploads st' !! stored_name c = None
            ∧ (∀ conditional, ∃ body,
                 get_clip at_root "01234567" conditional st' = (Val (jsonify body 404), st')
                 ∧ getitem body "error" = Val (JStr "Clip not found"))
            ∧ list_clips st' = (Val (jsonify doc' 200), st')
            ∧ lookup_clip "01234567" (without "01234567" l) = None.
Proof.
  assert (H : ∃ l c,
             records (document (blob_gone base_url set_repr at_root)) = Some l
             ∧ lookup_clip "01234567" l = Some c
             ∧ can_save (blob_gone base_url set_repr at_root) = true
             ∧ uploads (blob_gone base_url set_repr at_root) !! stored_name c = None).
  { eexists _, _. split; [vm_compute; reflexivity|]. split; [vm_compute; reflexivity|].
    split; reflexivity. }
  destruct H as (l & c & Hrec & Hc & Hsave & Hgone).
  exists l, c. split; [exact Hrec|]. split; [exact Hc|]. split; [exact Hsave|].
  split; [exact Hgone|].
  destruct (proj1 (delete_removes at_root "01234567" (blob_gone base_url set_repr at_root))
              l c Hrec Hc Hsave) as [st' Hrun].
  exists st'. split; [exact Hrun|].
  exact (proj2 (delete_removes at_root "01234567" (blob_gone base_url set_repr at_root))
           st' _ Hrun eq_refl).
Defined.

Lemma upload_rejected_witness :
  (Some evil_exe = None ∨
   ∃ file, Some evil_exe = Some file ∧
           (filename file = "" ∨ allowed (lower (suffix (filename file))) = false))
  ∧ ∃ body,
      upload_clip base_url set_repr env0 (Some evil_exe) (one_clip base_url set_repr at_root)
      = (Val (jsonify body 400), (one_clip base_url set_repr at_root))
      ∧ 400 <= status_code (jsonify body 400) < 500.
Proof.
  assert (H : Some evil_exe = None ∨
              ∃ file, Some evil_exe = Some file ∧
                      (filename file = ""
                       ∨ allowed (lower (suffix (filename file))) = false)).
  { right. exists evil_exe. split; [reflexivity|]. right. reflexivity. }
  split; [exact H|].
  exact (upload_rejected base_url set_repr env0 (Some evil_exe) (one_clip base_url set_repr at_root) H).
Defined.

Lemma upload_without_suffix_witness :
  filename dot_mp4 ≠ ""
  ∧ suffix (filename dot_mp4) = ""
  ∧ upload_clip base_url set_repr env0 (Some dot_mp4) fresh_disk
    = (Val (jsonify (error_body ("Invalid file type. Allowed: " ++ set_repr)%string) 400),
       fresh_disk).
Proof.
  assert (H1 : filename dot_mp4 ≠ "") by discriminate.
  assert (H2 : suffix (filename dot_mp4) = "") by reflexivity.
  split; [exact H1|]. split; [exact H2|].
  exact (upload_without_suffix base_url set_repr env0 dot_mp4 fresh_disk H1 H2).
Defined.

Lemma delete_unknown_witness :
  ∃ l,
    clips_of (document (one_clip base_url set_repr at_root)) = Some l
    ∧ Forall keyed l
    ∧ lookup_clip "89abcdef" l = None
    ∧ delete_clip "89abcdef" (one_clip base_url set_repr at_root)
      = (Val (jsonify (error_body "Clip not found") 404), (one_clip base_url set_repr at_root)).
Proof.
  assert (H : ∃ l, clips_of (document (one_clip base_url set_repr at_root)) = Some l
                   ∧ Forall keyed l ∧ lookup_clip "89abcdef" l = None).
  { eexists. split; [vm_compute; reflexivity|]. split; [|reflexivity].
    repeat constructor. eexists. reflexivity. }
  destruct H as (l & H1 & H2 & H3).
  exists l. split; [exact H1|]. split; [exact H2|]. split; [exact H3|].
  exact (delete_unknown "89abcdef" (one_clip base_url set_repr at_root) l H1 H2 H3).
Defined.


Lemma delete_removes_all_witness :
  ∃ resp st',
    delete_clip "5eedc0de" (duplicates base_url set_repr at_root) = (Val resp, st')
    ∧ status_code resp = 200
    ∧ ∃ l kept,
        clips_of (document (duplicates base_url set_repr at_root)) = Some l
        ∧ clips_of (document st') = Some kept
        ∧ kept = List.filter (fun c => negb (has_id "5eedc0de" c)) l
        ∧ Forall (fun c => has_id "5eedc0de" c = false) kept
        ∧ (∀ c, In c l -> has_id "5eedc0de" c = false -> In c kept).
Proof.
  assert (H : ∃ resp st', delete_clip "5eedc0de" (duplicates base_url set_repr at_root) = (Val resp, st')
                          ∧ status_code resp = 200).
  { eexists _, _. split; [vm_compute; reflexivity | reflexivity]. }
  destruct H as (resp & st' & Hrun & H200).
  exists resp, st'. split; [exact Hrun|]. split; [exact H200|].
  exact (delete_removes_all "5eedc0de" (duplicates base_url set_repr at_root) st' resp Hrun H200).
Defined.

(** ** Runs for the further properties *)

Lemma one_clip_reachable :
  reachable base_url set_repr at_root (one_clip base_url set_repr at_root).
Proof. apply serve_reachable, reachable_start. Defined.

Lemma get_file_hash_format_witness :
  ∃ h st',
    get_file_hash "01234567.mp4" (one_clip base_url set_repr at_root) = (Val h, st')
    ∧ String.length h = 16%nat
    ∧ Forall (fun c => In c hex_chars) (list_ascii_of_string h).
Proof.
  assert (H : ∃ h st', get_file_hash "01234567.mp4" (one_clip base_url set_repr at_root) = (Val h, st')).
  { eexists _, _. vm_compute. reflexivity. }
  destruct H as (h & st' & H). exists h, st'. split; [exact H|].
  exact (get_file_hash_format "01234567.mp4" h (one_clip base_url set_repr at_root) st' H).
Defined.

Lemma upload_failure_leaves_blob_witness :
  filename abc_mp4 ≠ ""
  ∧ allowed (lower (suffix (filename abc_mp4))) = true
  ∧ (clips_of (document no_clips) = None ∨ can_save no_clips = false)
  ∧ ∃ err,
      upload_clip base_url set_repr env0 (Some abc_mp4) no_clips
      = (Val (server_error err),
         {| metadata_file := metadata_file no_clips;
            uploads := <[(generate_clip_id env0 ++ lower (suffix (filename abc_mp4)))%string
                         := stream abc_mp4]> (uploads no_clips) |}).
Proof.
  assert (H1 : filename abc_mp4 ≠ "") by discriminate.
  assert (H2 : allowed (lower (suffix (filename abc_mp4))) = true) by reflexivity.
  assert (H3 : clips_of (document no_clips) = None ∨ can_save no_clips = false)
    by (left; reflexivity).
  split; [exact H1|]. split; [exact H2|]. split; [exact H3|].
  exact (upload_failure_leaves_blob base_url set_repr env0 abc_mp4 no_clips H1 H2 H3).
Defined.

Lemma upload_replaces_bad_metadata_witness :
  ∃ f,
    metadata_file not_json = Some f ∧ writable f = true
    ∧ (readable f = false ∨ contents f = NotJson)
    ∧ fst (upload_clip base_url set_repr env0 (Some abc_mp4) not_json)
      = Val (jsonify (upload_ok base_url (generate_clip_id env0)) 200).
Proof.
  assert (H1 : filename abc_mp4 ≠ "") by discriminate.
  assert (H2 : allowed (lower (suffix (filename abc_mp4))) = true) by reflexivity.
  eexists. split; [reflexivity|]. split; [reflexivity|]. split; [right; reflexivity|].
  rewrite (upload_replaces_bad_metadata base_url set_repr env0 _ abc_mp4 not_json
             H1 H2 eq_refl eq_refl (or_intror eq_refl)).
  reflexivity.
Defined.

Lemma upload_then_download_witness :
  at_root = None
  ∧ records (document fresh_disk) = Some []
  ∧ get_clip at_root (generate_clip_id env0) false
             (snd (upload_clip base_url set_repr env0 (Some abc_mp4) fresh_disk))
    = (Val (send_file (generate_clip_id env0 ++ lower (suffix (filename abc_mp4)))%string
                      (stream abc_mp4)),
       snd (upload_clip base_url set_repr env0 (Some abc_mp4) fresh_disk)).
Proof.
  assert (H1 : filename abc_mp4 ≠ "") by discriminate.
  assert (H2 : allowed (lower (suffix (filename abc_mp4))) = true) by reflexivity.
  assert (H3 : records (document fresh_disk) = Some []) by reflexivity.
  split; [reflexivity|]. split; [exact H3|].
  exact (upload_then_download base_url set_repr at_root env0 abc_mp4 fresh_disk []
           eq_refl H1 H2 H3 eq_refl eq_refl eq_refl).
Defined.

Lemma upload_shadowed_witness :
  ∃ l c,
    records (document (one_clip base_url set_repr at_root)) = Some l
    ∧ lookup_clip (generate_clip_id env0) l = Some c
    ∧ stored_name c ≠ (generate_clip_id env0 ++ lower (suffix (filename other_avi)))%string
    ∧ fst (upload_clip base_url set_repr env0 (Some other_avi) (one_clip base_url set_repr at_root))
      = Val (jsonify (upload_ok base_url (generate_clip_id env0)) 200)
    ∧ ∀ conditional,
        fst (get_clip at_root (generate_clip_id env0) conditional
               (snd (upload_clip base_url set_repr env0 (Some other_avi)
                       (one_clip base_url set_repr at_root))))
        = fst (get_clip at_root (generate_clip_id env0) conditional
                 (one_clip base_url set_repr at_root)).
Proof.
  assert (H1 : filename other_avi ≠ "") by discriminate.
  assert (H2 : allowed (lower (suffix (filename other_avi))) = true) by reflexivity.
  assert (H : ∃ l c, records (document (one_clip base_url set_repr at_root)) = Some l
                     ∧ lookup_clip (generate_clip_id env0) l = Some c
                     ∧ stored_name c
                       ≠ (generate_clip_id env0 ++ lower (suffix (filename other_avi)))%string).
  { eexists _, _. split; [vm_compute; reflexivity|]. split; [vm_compute; reflexivity|].
    vm_compute. discriminate. }
  destruct H as (l & c & H3 & H4 & H5). exists l, c.
  split; [exact H3|]. split; [exact H4|]. split; [exact H5|].
  split.
  - exact (proj1 (upload_shadowed base_url set_repr at_root env0 other_avi
                    (one_clip base_url set_repr at_root) l c false
                    H1 H2 H3 eq_refl eq_refl H4 H5)).
  - intros conditional.
    exact (proj2 (upload_shadowed base_url set_repr at_root env0 other_avi
                    (one_clip base_url set_repr at_root) l c conditional
                    H1 H2 H3 eq_refl eq_refl H4 H5)).
Defined.

Lemma delete_succeeds_witness :
  ∃ l c,
    records (document (one_clip base_url set_repr at_root)) = Some l
    ∧ lookup_clip "01234567" l = Some c
    ∧ ∃ st', delete_clip "01234567" (one_clip base_url set_repr at_root)
             = (Val (jsonify (delete_ok "01234567") 200), st').
Proof.
  assert (H : ∃ l c, records (document (one_clip base_url set_repr at_root)) = Some l
                     ∧ lookup_clip "01234567" l = Some c).
  { eexists _, _. split; vm_compute; reflexivity. }
  destruct H as (l & c & H1 & H2). exists l, c. split; [exact H1|]. split; [exact H2|].
  exact (delete_succeeds "01234567" (one_clip base_url set_repr at_root) l c H1 H2 eq_refl).
Defined.

Lemma delete_unwritable_witness :
  ∃ l c,
    records (document (locked (one_clip base_url set_repr at_root))) = Some l
    ∧ lookup_clip "01234567" l = Some c
    ∧ can_save (locked (one_clip base_url set_repr at_root)) = false
    ∧ let st' := {| metadata_file := metadata_file (locked (one_clip base_url set_repr at_root));
                    uploads := delete (stored_name c)
                                 (uploads (locked (one_clip base_url set_repr at_root))) |} in
      delete_clip "01234567" (locked (one_clip base_url set_repr at_root))
      = (Val (server_error PermissionError), st')
      ∧ ∀ conditional, ∃ body,
          get_clip at_root "01234567" conditional st' = (Val (jsonify body 404), st')
          ∧ getitem body "error" = Val (JStr "File not found on server").
Proof.
  assert (H : ∃ l c, records (document (locked (one_clip base_url set_repr at_root))) = Some l
                     ∧ lookup_clip "01234567" l = Some c).
  { eexists _, _. split; vm_compute; reflexivity. }
  destruct H as (l & c & H1 & H2). exists l, c. split; [exact H1|]. split; [exact H2|].
  split; [reflexivity|].
  exact (delete_unwritable at_root "01234567" (locked (one_clip base_url set_repr at_root)) l c
           H1 H2 eq_refl).
Defined.

Lemma delete_twice_witness :
  ∃ resp st',
    delete_clip "01234567" (one_clip base_url set_repr at_root) = (Val resp, st')
    ∧ status_code resp = 200
    ∧ delete_clip "01234567" st' = (Val (jsonify (error_body "Clip not found") 404), st').
Proof.
  assert (H : ∃ resp st', delete_clip "01234567" (one_clip base_url set_repr at_root) = (Val resp, st')
                          ∧ status_code resp = 200).
  { eexists _, _. split; [vm_compute; reflexivity | reflexivity]. }
  destruct H as (resp & st' & Hrun & H200).
  exists resp, st'. split; [exact Hrun|]. split; [exact H200|].
  exact (delete_twice "01234567" (one_clip base_url set_repr at_root) st' resp Hrun H200).
Defined.

Lemma upload_then_delete_witness :
  serve base_url set_repr at_root [Upload env0 (Some abc_mp4); Delete (generate_clip_id env0)] fresh_disk
  = fresh_disk.
Proof.
  assert (H1 : filename abc_mp4 ≠ "") by discriminate.
  assert (H2 : allowed (lower (suffix (filename abc_mp4))) = true) by reflexivity.
  exact (upload_then_delete base_url set_repr at_root env0 abc_mp4 [("clips", JList [])] [] ∅
           H1 H2 eq_refl (List.Forall_nil _) eq_refl eq_refl).
Defined.

Lemma other_members_kept_witness :
  ∃ resp st',
    handle base_url set_repr at_root (Upload env0 (Some abc_mp4)) versioned = (Val resp, st')
    ∧ status_code resp = 200
    ∧ "version" ≠ "clips"
    ∧ getitem (document st') "version" = getitem (document versioned) "version".
Proof.
  assert (H : ∃ resp st',
             handle base_url set_repr at_root (Upload env0 (Some abc_mp4)) versioned = (Val resp, st')
             ∧ status_code resp = 200).
  { eexists _, _. split; [vm_compute; reflexivity | reflexivity]. }
  destruct H as (resp & st' & Hrun & H200).
  assert (Hk : "version" ≠ "clips") by discriminate.
  exists resp, st'. split; [exact Hrun|]. split; [exact H200|]. split; [exact Hk|].
  exact (other_members_kept base_url set_repr at_root _ versioned st' resp "version" Hrun H200 Hk).
Defined.

Lemma reachable_entries_named_witness :
  ∃ l, clips_of (document (one_clip base_url set_repr at_root)) = Some l
       ∧ Forall (fun c => ∃ id ext,
                   getitem c "clip_id" = Val (JStr id)
                   ∧ String.length id = 8%nat
                   ∧ allowed ext = true
                   ∧ getitem c "filename" = Val (JStr (id ++ ext)%string)) l.
Proof.
  exact (reachable_entries_named base_url set_repr at_root _ one_clip_reachable).
Defined.

Lemma reachable_no_missing_blob_witness :
  (∃ rs, records (document (one_clip base_url set_repr at_root)) = Some (map to_value rs)
         ∧ Forall (fun r => is_Some (uploads (one_clip base_url set_repr at_root)
                                       !! stored_filename r)) rs)
  ∧ (∀ conditional,
       fst (get_clip at_root "01234567" conditional (one_clip base_url set_repr at_root))
       ≠ Val (jsonify (error_body "File not found on server") 404))
  ∧ (at_root = None ->
     get_clip at_root "01234567" false (one_clip base_url set_repr at_root)
     = (Val (jsonify (error_body "Clip not found") 404), one_clip base_url set_repr at_root)
     ∨ ∃ nm data,
         get_clip at_root "01234567" false (one_clip base_url set_repr at_root)
         = (Val (send_file nm data), one_clip base_url set_repr at_root)
         ∧ uploads (one_clip base_url set_repr at_root) !! nm = Some data).
Proof.
  exact (reachable_no_missing_blob base_url set_repr at_root _ "01234567" one_clip_reachable).
Defined.

Lemma reachable_no_server_error_witness :
  at_root = None
  ∧ unconditional (Get "01234567" false) = true
  ∧ ∃ resp st',
      handle base_url set_repr at_root (Get "01234567" false)
        (one_clip base_url set_repr at_root) = (Val resp, st')
      ∧ (status_code resp = 200 ∨ status_code resp = 400 ∨ status_code resp = 404).
Proof.
  split; [reflexivity|]. split; [reflexivity|].
  exact (reachable_no_server_error base_url set_repr at_root _ (Get "01234567" false)
           one_clip_reachable eq_refl eq_refl).
Defined.

Lemma no_clips_member_witness :
  getitem (document no_clips) "clips" = Exc (KeyError "clips")
  ∧ get_clip at_root "01234567" false no_clips
    = (Val (server_error (KeyError "clips")), no_clips)
  ∧ delete_clip "01234567" no_clips = (Val (server_error (KeyError "clips")), no_clips).
Proof.
  assert (H : getitem (document no_clips) "clips" = Exc (KeyError "clips")) by reflexivity.
  split; [exact H|].
  exact (no_clips_member at_root "01234567" false no_clips (KeyError "clips") H).
Defined.

Lemma delete_fails_after_unlink_witness :
  ¬ Forall keyed [JInt 5]
  ∧ at_root = None
  ∧ get_clip at_root "01234567" false (broken_tail base_url)
    = (Val (send_file "01234567.mp4" (list_byte_of_string "abc")), broken_tail base_url)
  ∧ ∃ err,
      delete_clip "01234567" (broken_tail base_url)
      = (Val (server_error err),
         {| metadata_file := metadata_file (broken_tail base_url);
            uploads := delete "01234567.mp4" (uploads (broken_tail base_url)) |}).
Proof.
  assert (H : ¬ Forall keyed [JInt 5]).
  { intros H. apply Forall_cons in H. destruct H as [[v Hv] _]. discriminate Hv. }
  split; [exact H|]. split; [reflexivity|].
  exact (delete_fails_after_unlink at_root "01234567" "01234567.mp4" (broken_tail base_url)
           _ [] [JInt 5] _ (list_byte_of_string "abc")
           eq_refl eq_refl (List.Forall_nil _) eq_refl eq_refl eq_refl eq_refl H eq_refl).
Defined.

Lemma reachable_entries_describe_blobs_witness :
  ∃ l,
    clips_of (document (one_clip base_url set_repr at_root)) = Some l
    ∧ NoDup (ids l)
    ∧ Forall (fun c => ∃ nm data,
                getitem c "filename" = Val (JStr nm)
                ∧ uploads (one_clip base_url set_repr at_root) !! nm = Some data
                ∧ getitem c "file_size" = Val (JInt (Z.of_nat (length data)))
                ∧ getitem c "file_hash" = Val (JStr (prefix 16 (SHA256.hexdigest data)))) l.
Proof.
  assert (H : ∃ l, clips_of (document (one_clip base_url set_repr at_root)) = Some l
                   ∧ NoDup (ids l)).
  { eexists. split; [vm_compute; reflexivity | apply NoDup_singleton]. }
  destruct H as (l & H1 & H2). exists l. split; [exact H1|]. split; [exact H2|].
  exact (reachable_entries_describe_blobs base_url set_repr at_root _ l one_clip_reachable
           H1 H2).
Defined.

Lemma get_clip_other_root_witness :
  ∃ l c,
    records (document (one_clip base_url set_repr (Some ∅))) = Some l
    ∧ lookup_clip "01234567" l = Some c
    ∧ is_Some (uploads (one_clip base_url set_repr (Some ∅)) !! stored_name c)
    ∧ (∅ : gmap string bytes) !! stored_name c = None
    ∧ get_clip (Some ∅) "01234567" false (one_clip base_url set_repr (Some ∅))
      = (Val (server_error NotFound), one_clip base_url set_repr (Some ∅))
    ∧ status_code (server_error NotFound) = 500.
Proof.
  assert (H : ∃ l c,
             records (document (one_clip base_url set_repr (Some ∅))) = Some l
             ∧ lookup_clip "01234567" l = Some c
             ∧ is_Some (uploads (one_clip base_url set_repr (Some ∅)) !! stored_name c)).
  { eexists _, _. split; [vm_compute; reflexivity|]. split; [vm_compute; reflexivity|].
    eexists. reflexivity. }
  destruct H as (l & c & H1 & H2 & H3). exists l, c.
  split; [exact H1|]. split; [exact H2|]. split; [exact H3|].
  split; [apply lookup_empty|].
  exact (get_clip_other_root (Some ∅) "01234567" false (one_clip base_url set_repr (Some ∅))
           l c ∅ H1 H2 H3 eq_refl (lookup_empty _)).
Defined.
